(** * ticktui: the OAuth2 authorization-code flow with a loopback callback

    Shallow embedding of [src/ticktui/oauth.py] (callback handler, redirect
    server, [perform_oauth_flow]), of [TickTickAuth], [TokenStorage] and the
    project loops of [TickTickClient] in [src/ticktui/api.py], and of their
    callers in [src/ticktui/app.py] (login screen, start-up) and
    [src/ticktui/cli.py] (client construction).  Python strings are modelled as byte
    strings (their UTF-8 encoding); the outside world (socket probes, the
    browser, the HTTP requests reaching the listener, the token endpoint and
    [secrets.token_urlsafe]) is an explicit environment record. *)

From Stdlib Require Import String Ascii ZArith List Bool Lia.
From Stdlib Require Import DecimalString.
Import ListNotations.
Open Scope string_scope.
Open Scope Z_scope.

(** ** Python string primitives *)

Definition char_eqb (a b : ascii) : bool := Ascii.eqb a b.

(** [s.split(c, 1)] when [c in s]: the text before and after the first [c]. *)
Fixpoint split_once (c : ascii) (s : string) : option (string * string) :=
  match s with
  | EmptyString => None
  | String x t =>
      if char_eqb x c then Some (EmptyString, t)
      else match split_once c t with
           | Some (a, b) => Some (String x a, b)
           | None => None
           end
  end.

(** [s.split(c)] *)
Fixpoint split_on (c : ascii) (s : string) : list string :=
  match s with
  | EmptyString => [EmptyString]
  | String x t =>
      let rest := split_on c t in
      if char_eqb x c then EmptyString :: rest
      else match rest with
           | a :: r => String x a :: r
           | [] => [String x EmptyString]
           end
  end.

(** [s.replace(a, b)] for single characters. *)
Fixpoint replace_char (a b : ascii) (s : string) : string :=
  match s with
  | EmptyString => EmptyString
  | String x t => String (if char_eqb x a then b else x) (replace_char a b t)
  end.

Fixpoint has_char (c : ascii) (s : string) : bool :=
  match s with
  | EmptyString => false
  | String x t => char_eqb x c || has_char c t
  end.

Fixpoint all_chars (p : ascii -> bool) (s : string) : bool :=
  match s with
  | EmptyString => true
  | String x t => p x && all_chars p t
  end.

Definition in_range (lo hi : nat) (c : ascii) : bool :=
  (lo <=? nat_of_ascii c)%nat && (nat_of_ascii c <=? hi)%nat.

Definition is_upper (c : ascii) : bool := in_range 65 90 c.
Definition is_lower (c : ascii) : bool := in_range 97 122 c.
Definition is_alpha (c : ascii) : bool := is_upper c || is_lower c.
Definition is_digit (c : ascii) : bool := in_range 48 57 c.

(** ASCII [str.lower()]. *)
Fixpoint lower (s : string) : string :=
  match s with
  | EmptyString => EmptyString
  | String x t =>
      String (if is_upper x then ascii_of_nat (nat_of_ascii x + 32) else x)
             (lower t)
  end.

(** [f"{n}"] for an int. *)
Definition str_of_Z (n : Z) : string := NilZero.string_of_int (Z.to_int n).

(** Python exceptions raised along the flow and by [urllib.parse]. *)
Inductive exn :=
| RuntimeError (msg : string)
| OverflowError        (* socket.bind with a port outside 0..65535 *)
| OSError              (* HTTPServer cannot bind its port *)
| BrowserError         (* webbrowser.open raising *)
| HTTPStatusError (status : Z)   (* response.raise_for_status *)
| TransportError       (* httpx connection failure *)
| JSONDecodeError      (* response.json() on a non-JSON body *)
| AttributeError       (* .get on a JSON value that is not an object *)
| ValueError (msg : string)
| NotAnIPAddress (address : string).
  (* ip_address: ValueError(f"{address!r} does not appear to be an IPv4 or IPv6 address") *)

Inductive outcome (A : Type) :=
| Ret (a : A)
| Raise (e : exn).
Arguments Ret {A} a.
Arguments Raise {A} e.

(** ** [urllib.parse] *)

(** Value of a hexadecimal digit, as in the [_hextobyte] table. *)
Definition hexval (c : ascii) : option nat :=
  if is_digit c then Some (nat_of_ascii c - 48)%nat
  else if in_range 65 70 c then Some (nat_of_ascii c - 55)%nat
  else if in_range 97 102 c then Some (nat_of_ascii c - 87)%nat
  else None.

(** [unquote]: every [%XX] with two hex digits becomes the byte [XX]; any
    other [%] is kept.  Strings are byte strings here: the result is the
    byte string that Python then decodes as UTF-8 with [errors='replace'];
    for ASCII text the two coincide, and the decoding step is not
    modelled. *)
Fixpoint unquote (s : string) : string :=
  match s with
  | EmptyString => EmptyString
  | String c t =>
      if char_eqb c "%" then
        match t with
        | String h1 (String h2 rest) =>
            match hexval h1, hexval h2 with
            | Some a, Some b => String (ascii_of_nat (16 * a + b)) (unquote rest)
            | _, _ => String c (unquote t)
            end
        | _ => String c (unquote t)
        end
      else String c (unquote t)
  end.

(** [unquote_plus] *)
Definition unquote_plus (s : string) : string := unquote (replace_char "+" " " s).

(** [parse_qsl(qs)] with [keep_blank_values=False], [strict_parsing=False]:
    empty fields, fields without [=] and fields with an empty value are
    dropped; name and value are [unquote_plus]-decoded. *)
Definition parse_field (nv : string) : list (string * string) :=
  match nv with
  | EmptyString => []
  | _ =>
      match split_once "=" nv with
      | None => []
      | Some (n, v) =>
          match v with
          | EmptyString => []
          | _ => [(unquote_plus n, unquote_plus v)]
          end
      end
  end.

Definition parse_qsl (qs : string) : list (string * string) :=
  flat_map parse_field (split_on "&" qs).

(** [parse_qs] groups the pairs of [parse_qsl] by name, keeping their order:
    [k in params] and [params[k][0]] are the first pair named [k]. *)
Fixpoint qs_first (k : string) (ps : list (string * string)) : option string :=
  match ps with
  | [] => None
  | (n, v) :: r => if String.eqb n k then Some v else qs_first k r
  end.

Definition is_scheme_char (c : ascii) : bool :=
  is_alpha c || is_digit c || char_eqb c "+" || char_eqb c "-" || char_eqb c ".".

(** The scheme test of [urlsplit]: [url[:i]] before the first [:] with
    [i > 0], a letter first and only scheme characters. *)
Definition split_scheme (url : string) : string * string :=
  match split_once ":" url with
  | Some (pre, post) =>
      match pre with
      | String c0 _ =>
          if is_alpha c0 && all_chars is_scheme_char pre then (lower pre, post)
          else (EmptyString, url)
      | EmptyString => (EmptyString, url)
      end
  | None => (EmptyString, url)
  end.

(** [_splitnetloc(url, 2)] after the leading [//]: up to the first of [/?#]. *)
Fixpoint split_netloc (s : string) : string * string :=
  match s with
  | EmptyString => (EmptyString, EmptyString)
  | String c t =>
      if char_eqb c "/" || char_eqb c "?" || char_eqb c "#" then (EmptyString, s)
      else let (a, b) := split_netloc t in (String c a, b)
  end.

Record split_result := {
  us_scheme : string;
  us_netloc : string;
  us_path : string;
  us_query : string;
  us_fragment : string
}.

(** [_WHATWG_C0_CONTROL_OR_SPACE]: the characters [\x00] to [\x20]. *)
Definition c0_control_or_space (c : ascii) : bool := (nat_of_ascii c <=? 32)%nat.

(** [url.lstrip(_WHATWG_C0_CONTROL_OR_SPACE)] *)
Fixpoint lstrip_c0 (s : string) : string :=
  match s with
  | EmptyString => EmptyString
  | String c t => if c0_control_or_space c then lstrip_c0 t else s
  end.

(** [_UNSAFE_URL_BYTES_TO_REMOVE]: tab, carriage return and line feed. *)
Definition unsafe_url_byte (c : ascii) : bool :=
  char_eqb c "009" || char_eqb c "013" || char_eqb c "010".

(** [for b in _UNSAFE_URL_BYTES_TO_REMOVE: url = url.replace(b, "")] *)
Fixpoint remove_unsafe (s : string) : string :=
  match s with
  | EmptyString => EmptyString
  | String c t => if unsafe_url_byte c then remove_unsafe t else String c (remove_unsafe t)
  end.

(** The components [urlsplit(url)] computes (with the default [scheme=''] and
    [allow_fragments=True]); [urlsplit] returns them unless the netloc
    checks below raise. *)
Definition split_components (url : string) : split_result :=
  let url := remove_unsafe (lstrip_c0 url) in
  let (scheme, r1) := split_scheme url in
  let (netloc, r2) :=
    match r1 with
    | String s1 (String s2 r) =>
        if char_eqb s1 "/" && char_eqb s2 "/" then split_netloc r
        else (EmptyString, r1)
    | _ => (EmptyString, r1)
    end in
  let (r3, fragment) :=
    match split_once "#" r2 with Some p => p | None => (r2, EmptyString) end in
  let (path, query) :=
    match split_once "?" r3 with Some p => p | None => (r3, EmptyString) end in
  {| us_scheme := scheme; us_netloc := netloc; us_path := path;
     us_query := query; us_fragment := fragment |}.

(** [s.rpartition(c)[2]]: the text after the last [c], or [s] without one. *)
Fixpoint after_last (c : ascii) (s : string) : string :=
  match s with
  | EmptyString => EmptyString
  | String x t =>
      if has_char c t then after_last c t else if char_eqb x c then t else s
  end.

(** [s.partition(c)]: before and after the first [c], or [(s, "")]. *)
Definition partition (c : ascii) (s : string) : string * string :=
  match split_once c s with Some p => p | None => (s, EmptyString) end.

Definition is_hex (c : ascii) : bool := is_digit c || in_range 65 70 c || in_range 97 102 c.

(** The longest prefix of hexadecimal digits, and the rest. *)
Fixpoint hex_prefix (s : string) : string * string :=
  match s with
  | EmptyString => (EmptyString, EmptyString)
  | String c t =>
      if is_hex c then let (a, b) := hex_prefix t in (String c a, b)
      else (EmptyString, s)
  end.

(** [re.match(r"\Av[a-fA-F0-9]+\..+\Z", hostname)]: the hex run is followed
    by a [.] only if it is the longest one, and [.] does not match a line
    feed. *)
Definition ipvfuture_match (h : string) : bool :=
  match h with
  | String v t =>
      char_eqb v "v" &&
      (let (hx, rest) := hex_prefix t in
       negb (String.eqb hx "") &&
       match rest with
       | String d r => char_eqb d "." && negb (String.eqb r "") && negb (has_char "010" r)
       | EmptyString => false
       end)
  | EmptyString => false
  end.

(** [int(s, 10)] for a string of decimal digits. *)
Fixpoint decimal_value (acc : nat) (s : string) : nat :=
  match s with
  | EmptyString => acc
  | String c t => decimal_value (10 * acc + (nat_of_ascii c - 48)) t
  end.

(** [_BaseV4._parse_octet(octet_str)] returns (does not raise); the checks
    in the order of the source. *)
Definition octet_ok (o : string) : bool :=
  if String.eqb o "" then false
  else if negb (all_chars is_digit o) then false
  else if (3 <? String.length o)%nat then false
  else if negb (String.eqb o "0") && match o with String c _ => char_eqb c "0" | _ => false end
  then false
  else (decimal_value 0 o <=? 255)%nat.

(** [IPv4Address(s)] returns: no [/], not empty, four valid octets. *)
Definition ipv4_ok (s : string) : bool :=
  negb (has_char "/" s) && negb (String.eqb s "") &&
  (let octets := split_on "." s in (length octets =? 4)%nat && forallb octet_ok octets).

(** [_BaseV6._parse_hextet(h)] returns; [int('', 16)] raises on [""]. *)
Definition hextet_ok (h : string) : bool :=
  all_chars is_hex h && (String.length h <=? 4)%nat && negb (String.eqb h "").

(** The indices of the empty strings of a list, counted from [i]. *)
Fixpoint empty_positions (i : nat) (l : list string) : list nat :=
  match l with
  | [] => []
  | x :: r => (if String.eqb x "" then [i] else []) ++ empty_positions (S i) r
  end.

(** [_BaseV6._ip_int_from_string(ip_str)] returns.  An IPv4 suffix is
    replaced by two hextets; any valid ones do, ["0"] stands for them. *)
Definition ipv6_int_ok (ip : string) : bool :=
  if String.eqb ip "" then false else
  let parts0 := split_on ":" ip in
  if (length parts0 <? 3)%nat then false else
  let last0 := last parts0 EmptyString in
  match (if has_char "." last0
         then if ipv4_ok last0 then Some (removelast parts0 ++ ["0"; "0"])%list else None
         else Some parts0) with
  | None => false
  | Some parts =>
      let n := length parts in
      if (9 <? n)%nat then false else
      let first_empty := String.eqb (hd EmptyString parts) "" in
      let last_empty := String.eqb (last parts EmptyString) "" in
      match filter (fun i => (1 <=? i) && (i <=? n - 2))%nat (empty_positions 0 parts) with
      | [] =>
          (n =? 8)%nat && negb first_empty && negb last_empty && forallb hextet_ok parts
      | [k] =>
          let hi := if first_empty then (k - 1)%nat else k in
          let lo := if last_empty then (n - k - 2)%nat else (n - k - 1)%nat in
          (negb first_empty || (k =? 1)%nat) && (negb last_empty || (n - k - 1 =? 1)%nat) &&
          (hi + lo <? 8)%nat &&
          forallb hextet_ok (firstn hi parts) && forallb hextet_ok (skipn (n - lo) parts)
      | _ => false
      end
  end.

(** [IPv6Address(s)] returns: no [/], a scope id after the first [%] that
    is non-empty and has no [%], and a valid address before it. *)
Definition ipv6_ok (s : string) : bool :=
  negb (has_char "/" s) &&
  match split_once "%" s with
  | None => ipv6_int_ok s
  | Some (addr, scope) => negb (String.eqb scope "") && negb (has_char "%" scope) && ipv6_int_ok addr
  end.

(** [_check_bracketed_host(hostname)]: [ipaddress.ip_address] tries IPv4,
    then IPv6. *)
Definition check_bracketed_host (hostname : string) : option exn :=
  match hostname with
  | String v _ =>
      if char_eqb v "v" then
        if ipvfuture_match hostname then None
        else Some (ValueError "IPvFuture address is invalid")
      else if ipv4_ok hostname then Some (ValueError "An IPv4 address cannot be in brackets")
      else if ipv6_ok hostname then None else Some (NotAnIPAddress hostname)
  | EmptyString =>
      if ipv4_ok hostname then Some (ValueError "An IPv4 address cannot be in brackets")
      else if ipv6_ok hostname then None else Some (NotAnIPAddress hostname)
  end.

(** [_check_bracketed_netloc(netloc)] *)
Definition check_bracketed_netloc (netloc : string) : option exn :=
  let hostname_and_port := after_last "@" netloc in
  match split_once "[" hostname_and_port with
  | Some (before_bracket, bracketed) =>
      if negb (String.eqb before_bracket "") then Some (ValueError "Invalid IPv6 URL")
      else
        let (hostname, port) := partition "]" bracketed in
        if negb (String.eqb port "") &&
           negb (match port with String c _ => char_eqb c ":" | EmptyString => false end)
        then Some (ValueError "Invalid IPv6 URL")
        else check_bracketed_host hostname
  | None => check_bracketed_host (fst (partition ":" hostname_and_port))
  end.

(** The checks [urlsplit] makes of the netloc it found.  [_checknetloc]
    never raises here: the request target is decoded as ISO-8859-1 by
    [http.server], and the NFKC form of no character U+0080..U+00FF contains
    one of [/?#@:]. *)
Definition netloc_error (netloc : string) : option exn :=
  let o := has_char "[" netloc in
  let c := has_char "]" netloc in
  if (o && negb c) || (c && negb o) then Some (ValueError "Invalid IPv6 URL")
  else if o && c then check_bracketed_netloc netloc
  else None.

(** [urlsplit(url)] *)
Definition urlsplit (url : string) : outcome split_result :=
  let r := split_components url in
  match netloc_error (us_netloc r) with
  | Some x => Raise x
  | None => Ret r
  end.

Definition uses_params : list string :=
  [""; "ftp"; "hdl"; "prospero"; "http"; "imap"; "https"; "shttp"; "rtsp";
   "rtspu"; "sip"; "sips"; "mms"; "sftp"; "tel"].

(** Text before the last [/] and the rest from it, if there is a [/]. *)
Fixpoint last_seg (s : string) : option (string * string) :=
  match s with
  | EmptyString => None
  | String c t =>
      match last_seg t with
      | Some (a, b) => Some (String c a, b)
      | None => if char_eqb c "/" then Some (EmptyString, s) else None
      end
  end.

(** The path part of [_splitparams(url)]. *)
Definition splitparams_path (url : string) : string :=
  match last_seg url with
  | Some (pre, seg) =>
      match split_once ";" seg with Some (p, _) => pre ++ p | None => url end
  | None =>
      match split_once ";" url with Some (p, _) => p | None => url end
  end.

(** [urlparse(url)]: its [path] (after [_splitparams]) and its [query]. *)
Definition urlparse (url : string) : outcome (string * string) :=
  match urlsplit url with
  | Raise x => Raise x
  | Ret r =>
      Ret (if existsb (String.eqb (us_scheme r)) uses_params && has_char ";" (us_path r)
           then splitparams_path (us_path r) else us_path r,
           us_query r)
  end.

(** The query component [urlsplit(url)] computes ([urlparse(url).query]
    whenever [urlparse] returns). *)
Definition url_query (url : string) : string := us_query (split_components url).

(** [quote_plus(s)] with [safe='']: letters, digits and [_.-~] are kept, a
    space becomes [+], every other byte [%XX] (upper-case hex). *)
Definition hexdig (n : nat) : ascii :=
  if (n <? 10)%nat then ascii_of_nat (48 + n) else ascii_of_nat (55 + n).

Definition always_safe (c : ascii) : bool :=
  is_alpha c || is_digit c || char_eqb c "_" || char_eqb c "." ||
  char_eqb c "-" || char_eqb c "~".

Definition quote_byte (c : ascii) : string :=
  if always_safe c then String c EmptyString
  else if char_eqb c " " then "+"
  else String "%" (String (hexdig (nat_of_ascii c / 16))
                          (String (hexdig (nat_of_ascii c mod 16)) EmptyString)).

Fixpoint quote_plus (s : string) : string :=
  match s with
  | EmptyString => EmptyString
  | String c t => quote_byte c ++ quote_plus t
  end.

(** The alphabet of [secrets.token_urlsafe]: letters, digits, [-] and [_]. *)
Definition urlsafe_char (c : ascii) : bool :=
  is_alpha c || is_digit c || char_eqb c "-" || char_eqb c "_".

(** [urlencode(params)] for a dict of strings, in insertion order. *)
Definition urlencode (params : list (string * string)) : string :=
  String.concat "&" (map (fun '(k, v) => quote_plus k ++ "=" ++ quote_plus v) params).

(** ** [TickTickAuth] (api.py) *)

(** JSON values a token response may hold, as Python values. *)
Inductive pyval :=
| VNone
| VStr (s : string)
| VNum (n : Z)
| VBool (b : bool).

(** Python truthiness. *)
Definition truthy (v : pyval) : bool :=
  match v with
  | VNone => false
  | VStr s => negb (String.eqb s "")
  | VNum n => negb (n =? 0)
  | VBool b => b
  end.

(** A dict decoded by [response.json()]. *)
Definition pydict := list (string * pyval).

Fixpoint dict_get (k : string) (d : pydict) : pyval :=
  match d with
  | [] => VNone
  | (n, v) :: r => if String.eqb n k then v else dict_get k r
  end.

Fixpoint dict_has (k : string) (d : pydict) : bool :=
  match d with
  | [] => false
  | (n, _) :: r => String.eqb n k || dict_has k r
  end.

(** Body of the token endpoint's answer. *)
Inductive json_body :=
| JObj (d : pydict)
| JNonObject
| JInvalid.

(** What the token endpoint does with one POST. *)
Inductive http_reply :=
| NoConnection
| Reply (status : Z) (body : json_body).

Record TickTickAuth := {
  client_id : string;
  client_secret : string;
  redirect_uri : string;
  access_token_ : pyval;
  refresh_token_ : pyval
}.

Definition mk_auth (cid secret ruri : string) : TickTickAuth :=
  {| client_id := cid; client_secret := secret; redirect_uri := ruri;
     access_token_ := VNone; refresh_token_ := VNone |}.

Definition AUTHORIZE_URL : string := "https://ticktick.com/oauth/authorize".

(** [get_authorization_url(state)]; [fresh] is what [secrets.token_urlsafe(32)]
    returns when no state is passed. *)
Definition get_authorization_url (a : TickTickAuth) (state : option string)
    (fresh : string) : string * string :=
  let st := match state with Some s => s | None => fresh end in
  let params := [("client_id", client_id a); ("redirect_uri", redirect_uri a);
                 ("response_type", "code"); ("scope", "tasks:read tasks:write");
                 ("state", st)] in
  (AUTHORIZE_URL ++ "?" ++ urlencode params, st).

(** [client.post(...)], [response.raise_for_status()], [response.json()]. *)
Definition post_json (reply : http_reply) : outcome pydict :=
  match reply with
  | NoConnection => Raise TransportError
  | Reply status body =>
      if (200 <=? status) && (status <? 300) then
        match body with
        | JObj d => Ret d
        | JNonObject => Raise AttributeError
        | JInvalid => Raise JSONDecodeError
        end
      else Raise (HTTPStatusError status)
  end.

(** [exchange_code(code)]: the reply is the endpoint's answer to the POST
    [grant_type=authorization_code&code=...]. *)
Definition exchange_code (reply : http_reply) (a : TickTickAuth)
    : outcome pydict * TickTickAuth :=
  match post_json reply with
  | Raise e => (Raise e, a)
  | Ret d =>
      (Ret d, {| client_id := client_id a; client_secret := client_secret a;
                 redirect_uri := redirect_uri a;
                 access_token_ := dict_get "access_token" d;
                 refresh_token_ := dict_get "refresh_token" d |})
  end.

(** [refresh_access_token()] *)
Definition refresh_access_token (reply : http_reply) (a : TickTickAuth)
    : outcome pydict * TickTickAuth :=
  if negb (truthy (refresh_token_ a)) then
    (Raise (ValueError "No refresh token available"), a)
  else
    match post_json reply with
    | Raise e => (Raise e, a)
    | Ret d =>
        (Ret d, {| client_id := client_id a; client_secret := client_secret a;
                   redirect_uri := redirect_uri a;
                   access_token_ := dict_get "access_token" d;
                   refresh_token_ := if dict_has "refresh_token" d
                                     then dict_get "refresh_token" d
                                     else refresh_token_ a |})
    end.

(** ** [OAuthCallbackHandler] (oauth.py) *)

(** The class-level fields shared by all handler instances. *)
Record callback_state := {
  auth_code : option string;
  auth_state : option string;
  error : option string
}.

Definition reset_state : callback_state :=
  {| auth_code := None; auth_state := None; error := None |}.

Definition set_error (st : callback_state) (msg : string) : callback_state :=
  {| auth_code := auth_code st; auth_state := auth_state st; error := Some msg |}.

(** [do_GET] on request target [path] ([self.path], the request line
    decoded as ISO-8859-1, one character per byte): the HTTP status sent, or
    the exception raised, and the new shared state.  [urlparse] is the only
    step that can raise, before any field is assigned; [socketserver] then
    reports the exception in [handle_error] and goes on serving. *)
Definition do_GET (path : string) (st : callback_state) : outcome Z * callback_state :=
  match urlparse path with
  | Raise x => (Raise x, st)
  | Ret (ppath, query) =>
      if String.eqb ppath "/callback" then
        let params := parse_qsl query in
        match qs_first "code" params with
        | Some c =>
            (Ret 200, {| auth_code := Some c; auth_state := qs_first "state" params;
                         error := error st |})
        | None =>
            match qs_first "error" params with
            | Some e =>
                let msg := match qs_first "error_description" params with
                           | Some d => d
                           | None => e
                           end in
                (Ret 400, set_error st msg)
            | None => (Ret 400, set_error st "No authorization code received")
            end
        end
      else (Ret 404, st)
  end.

(** The message an error callback records. *)
Definition error_message (ps : list (string * string)) (er : string) : string :=
  match qs_first "error_description" ps with Some d => d | None => er end.

(** [do_GET] takes its [/callback] branch: [urlparse] returns and
    [parsed.path == "/callback"]. *)
Definition is_callback (path : string) : bool :=
  match urlparse path with
  | Ret (ppath, _) => String.eqb ppath "/callback"
  | Raise _ => false
  end.

(** The listener serving a sequence of requests, in arrival order. *)
Definition serve (reqs : list string) (st : callback_state) : callback_state :=
  fold_left (fun s p => snd (do_GET p s)) reqs st.

(** ** [OAuthRedirectServer] and [perform_oauth_flow] (oauth.py) *)

(** Observable steps of a flow, most recent first in [trace]. *)
Inductive event :=
| EvListen (port : Z)        (* HTTPServer bound and serve_forever thread started *)
| EvBrowser (url : string)   (* webbrowser.open(url) *)
| EvExchange (code : string) (* auth.exchange_code(code) invoked *)
| EvStop.                    (* OAuthRedirectServer.stop() executed *)

(** The shared handler fields plus the one [OAuthRedirectServer] object of
    the flow ([srv_server] is [self.server], with the port it is bound to). *)
Record world := {
  handler : callback_state;
  srv_port : Z;
  srv_server : option Z;
  srv_thread : bool;
  trace : list event
}.

(** The outside world of one flow. *)
Record env := {
  env_bindable : Z -> bool;       (* does the probe bind on (localhost, port) succeed *)
  env_listen_ok : bool;           (* does HTTPServer((host, port), ...) bind *)
  env_token : string;             (* secrets.token_urlsafe(32) *)
  env_browser_ok : bool;          (* webbrowser.open returns without raising *)
  env_requests : list string;     (* request targets served before the wait reads *)
  env_token_reply : http_reply    (* the token endpoint's answer *)
}.

Definition M (A : Type) := world -> outcome A * world.

Definition ret {A} (a : A) : M A := fun w => (Ret a, w).
Definition throw {A} (x : exn) : M A := fun w => (Raise x, w).
Definition bind {A B} (m : M A) (k : A -> M B) : M B :=
  fun w => match m w with
           | (Ret a, w') => k a w'
           | (Raise x, w') => (Raise x, w')
           end.
Definition get : M world := fun w => (Ret w, w).
Definition put (w : world) : M unit := fun _ => (Ret tt, w).
Definition lift {A} (o : outcome A) : M A := fun w => (o, w).

Notation "x <- m ;; k" := (bind m (fun x => k))
  (at level 61, m at next level, right associativity).
Notation "' p <- m ;; k" := (bind m (fun x => match x with p => k end))
  (at level 61, p pattern, m at next level, right associativity).
Notation "m ;; k" := (bind m (fun _ => k)) (at level 61, right associativity).

(** [try: body finally: fin] *)
Definition try_finally {A} (body : M A) (fin : M unit) : M A :=
  fun w => match body w with
           | (r, w1) => match fin w1 with
                        | (Ret _, w2) => (r, w2)
                        | (Raise x, w2) => (Raise x, w2)
                        end
           end.

Definition log (ev : event) : M unit :=
  fun w => (Ret tt, {| handler := handler w; srv_port := srv_port w;
                       srv_server := srv_server w; srv_thread := srv_thread w;
                       trace := ev :: trace w |}).

Definition set_handler (st : callback_state) : M unit :=
  fun w => (Ret tt, {| handler := st; srv_port := srv_port w;
                       srv_server := srv_server w; srv_thread := srv_thread w;
                       trace := trace w |}).

Definition HOST : string := "localhost".

Definition redirect_uri_of_port (port : Z) : string :=
  "http://" ++ HOST ++ ":" ++ str_of_Z port ++ "/callback".

(** [redirect_uri] property. *)
Definition server_redirect_uri (w : world) : string := redirect_uri_of_port (srv_port w).

(** The [for port in range(start, start + 100)] loop: a probe that binds
    returns the port, one raising [OSError] moves on; [socket.bind] raises
    [OverflowError] (not an [OSError]) for a port outside [0..65535]. *)
Fixpoint scan_ports (bindable : Z -> bool) (port : Z) (n : nat) : outcome (option Z) :=
  match n with
  | O => Ret None
  | S n' =>
      if (0 <=? port) && (port <=? 65535) then
        if bindable port then Ret (Some port) else scan_ports bindable (port + 1) n'
      else Raise OverflowError
  end.

(** [_find_available_port] *)
Definition find_available_port (bindable : Z -> bool) (start : Z) : outcome Z :=
  match scan_ports bindable start 100 with
  | Ret (Some p) => Ret p
  | Ret None => Raise (RuntimeError ("No available ports found starting from " ++ str_of_Z start))
  | Raise x => Raise x
  end.

(** [start()] *)
Definition start (e : env) : M Z :=
  set_handler reset_state ;;
  w <- get ;;
  p <- lift (find_available_port (env_bindable e) (srv_port w)) ;;
  put {| handler := handler w; srv_port := p; srv_server := srv_server w;
         srv_thread := srv_thread w; trace := trace w |} ;;
  if env_listen_ok e then
    w <- get ;;
    put {| handler := handler w; srv_port := p; srv_server := Some p;
           srv_thread := true; trace := EvListen p :: trace w |} ;;
    ret p
  else throw OSError.

(** [stop()]: [if self.server: shutdown; self.server = None]; [self._thread = None]. *)
Definition stop : M unit :=
  w <- get ;;
  put {| handler := handler w; srv_port := srv_port w;
         srv_server := match srv_server w with Some _ => None | None => None end;
         srv_thread := false; trace := EvStop :: trace w |}.

(** [wait_for_callback()]: the listener thread serves the requests that
    arrive; the wait returns the shared fields as it reads them. *)
Definition wait_for_callback (e : env) : M (option string * option string * option string) :=
  w <- get ;;
  let st := serve (env_requests e) (handler w) in
  set_handler st ;;
  ret (auth_code st, auth_state st, error st).

Definition truthy_opt (s : option string) : bool :=
  match s with Some x => negb (String.eqb x "") | None => false end.

Definition str_or_none (s : option string) : pyval :=
  match s with Some x => VStr x | None => VNone end.

(** [returned_state != state] *)
Definition state_differs (returned : option string) (state : string) : bool :=
  match returned with Some s => negb (String.eqb s state) | None => true end.

(** The body of the [try] block. *)
Definition flow_body (e : env) (cid secret : string) : M (pyval * pyval * pyval) :=
  w <- get ;;
  let auth := mk_auth cid secret (server_redirect_uri w) in
  let '(auth_url, state) := get_authorization_url auth None (env_token e) in
  (if env_browser_ok e then log (EvBrowser auth_url) else throw BrowserError) ;;
  '(code, returned_state, err) <- wait_for_callback e ;;
  if truthy_opt err then ret (VNone, VNone, str_or_none err)
  else if negb (truthy_opt code) then ret (VNone, VNone, VStr "Authorization timed out")
  else if state_differs returned_state state
  then ret (VNone, VNone, VStr "State mismatch - possible CSRF attack")
  else
    let c := match code with Some x => x | None => "" end in
    log (EvExchange c) ;;
    token_data <- lift (fst (exchange_code (env_token_reply e) auth)) ;;
    ret (dict_get "access_token" token_data, dict_get "refresh_token" token_data, VNone).

(** [perform_oauth_flow(client_id, client_secret)]: a fresh
    [OAuthRedirectServer()] (port 8080), [server.start()] outside the [try],
    the body, and [server.stop()] in the [finally]. *)
Definition perform_oauth_flow (e : env) (cid secret : string) : M (pyval * pyval * pyval) :=
  w <- get ;;
  put {| handler := handler w; srv_port := 8080; srv_server := None;
         srv_thread := false; trace := trace w |} ;;
  start e ;;
  try_finally (flow_body e cid secret) stop.

(** ** [TokenStorage] (api.py) and its callers in app.py and cli.py *)

(** The tokens file: absent, or the JSON document it holds.  Writes are
    modelled as succeeding; [os.chmod] does not change the content. *)
Definition token_file := option json_body.

(** [TokenStorage.save(access_token, refresh_token)] *)
Definition save_data (access_token refresh_token : pyval) : pydict :=
  (("access_token", access_token) ::
   (if truthy refresh_token then [("refresh_token", refresh_token)] else []))%list.

Definition storage_save (access_token refresh_token : pyval) (f : token_file) : token_file :=
  Some (JObj (save_data access_token refresh_token)).

(** [TokenStorage.load()]: [{}] when the file does not exist, else
    [json.load]. *)
Definition storage_load (f : token_file) : outcome json_body :=
  match f with
  | None => Ret (JObj [])
  | Some JInvalid => Raise JSONDecodeError
  | Some b => Ret b
  end.

(** [TokenStorage.clear()] *)
Definition storage_clear (f : token_file) : token_file := None.

(** [tokens.get(k)] on what [load] returned. *)
Definition tokens_get (k : string) (b : json_body) : outcome pyval :=
  match b with
  | JObj d => Ret (dict_get k d)
  | _ => Raise AttributeError
  end.

Definition DEFAULT_REDIRECT_URI : string := "http://localhost:8080/callback".

(** [TickTickAuth(client_id, client_secret)] followed by
    [auth.access_token = access_token]. *)
Definition auth_with_token (cid secret : string) (access_token : pyval) : TickTickAuth :=
  {| client_id := cid; client_secret := secret; redirect_uri := DEFAULT_REDIRECT_URI;
     access_token_ := access_token; refresh_token_ := VNone |}.

(** [_build_client_from_tokens()] in cli.py: the auth object of the client. *)
Definition NOT_LOGGED_IN : string :=
  "Not logged in. Run the TUI once to authenticate, or store an access_token in ~/.config/ticktui/tokens.json".

Definition build_client_from_tokens (f : token_file) : outcome TickTickAuth :=
  match storage_load f with
  | Raise x => Raise x
  | Ret tokens =>
      match tokens_get "access_token" tokens with
      | Raise x => Raise x
      | Ret access_token =>
          if negb (truthy access_token) then Raise (RuntimeError NOT_LOGGED_IN)
          else Ret (auth_with_token "" "" access_token)
      end
  end.

(** [str(v)] / [f"{v}"] for the values a flow returns. *)
Definition py_str (v : pyval) : string :=
  match v with
  | VNone => "None"
  | VStr s => s
  | VNum n => str_of_Z n
  | VBool b => if b then "True" else "False"
  end.

(** What the app shows: status-label updates, error notifications and
    screen changes ([f"...{e}"] of a caught exception is kept as the
    exception). *)
Inductive ui_event :=
| Status (text : string)
| StatusExn (x : exn)
| Notify (text : string)
| NotifyExn (x : exn)
| PushScreen (name : string)
| SwitchScreen (name : string).

(** The [TickTUIApp] fields [auth] and [token_storage] (its file) and the
    UI events so far, most recent first. *)
Record app := {
  app_auth : option TickTickAuth;
  app_file : token_file;
  app_ui : list ui_event
}.

Definition show (ev : ui_event) (s : app) : app :=
  {| app_auth := app_auth s; app_file := app_file s; app_ui := ev :: app_ui s |}.

(** [TickTUIApp.setup_client] *)
Definition setup_client (cid secret : string) (access_token refresh_token : pyval) (s : app) : app :=
  {| app_auth := Some (auth_with_token cid secret access_token);
     app_file := storage_save access_token refresh_token (app_file s);
     app_ui := app_ui s |}.

(** [TickTUIApp.on_mount] *)
Definition on_mount (s : app) : outcome app :=
  match storage_load (app_file s) with
  | Raise x => Raise x
  | Ret tokens =>
      match tokens_get "access_token" tokens with
      | Raise x => Raise x
      | Ret access_token =>
          if truthy access_token
          then Ret (show (PushScreen "main") (setup_client "" "" access_token VNone s))
          else Ret (show (PushScreen "login") s)
      end
  end.

(** [LoginScreen.on_oauth_login]; [cid] and [secret] are the stripped input
    values.  The flow runs in the world [w] with the outside world [e]. *)
Definition on_oauth_login (e : env) (cid secret : string) (w : world) (s : app) : app * world :=
  if String.eqb cid "" || String.eqb secret "" then
    (show (Notify "Client ID and Client Secret are required for OAuth") s, w)
  else
    let s := show (Status "[yellow]Starting OAuth flow... Check your browser![/]") s in
    match perform_oauth_flow e cid secret w with
    | (Raise x, w') => (show (NotifyExn x) (show (StatusExn x) s), w')
    | (Ret (access_token, refresh_token, err), w') =>
        if truthy err then
          (show (Notify ("OAuth failed: " ++ py_str err))
             (show (Status ("[red]Error: " ++ py_str err ++ "[/]")) s), w')
        else if truthy access_token then
          (show (SwitchScreen "main")
             (setup_client cid secret access_token refresh_token
                (show (Status "[green]Authorization successful![/]") s)), w')
        else
          (show (Notify "OAuth failed: No access token")
             (show (Status "[red]No access token received[/]") s), w')
    end.

(** [LoginScreen.on_token_login]; [tok], [cid] and [secret] are the stripped
    input values. *)
Definition on_token_login (tok cid secret : string) (s : app) : app :=
  if String.eqb tok "" then show (Notify "Please enter an access token") s
  else
    let cid := if String.eqb cid "" then "manual" else cid in
    let secret := if String.eqb secret "" then "manual" else secret in
    show (SwitchScreen "main") (setup_client cid secret (VStr tok) VNone s).

(** ** [TickTickClient] loops over projects (api.py) *)

(** The loops only pass project ids and tasks along, so both stay abstract;
    [fetch id] is what [get_project_tasks(id)] (or [get_task(id, task_id)])
    returns or raises for that project. *)
Fixpoint all_tasks_loop {I T : Type} (fetch : I -> outcome (list T)) (all_tasks : list T)
    (ids : list I) : outcome (list T) :=
  match ids with
  | [] => Ret all_tasks
  | id :: rest =>
      match fetch id with
      | Ret tasks => all_tasks_loop fetch (all_tasks ++ tasks)%list rest
      | Raise (HTTPStatusError _) => all_tasks_loop fetch all_tasks rest
      | Raise x => Raise x
      end
  end.

(** [get_all_tasks()]; [projects] is what [get_projects()] returned or
    raised (the ids of the projects). *)
Definition get_all_tasks {I T : Type} (projects : outcome (list I))
    (fetch : I -> outcome (list T)) : outcome (list T) :=
  match projects with
  | Raise x => Raise x
  | Ret ids => all_tasks_loop fetch [] ids
  end.

(** The loop of [get_task_any_project(task_id)]; [last_error] only becomes
    the [__cause__] of the final [ValueError]. *)
Fixpoint any_project_loop {I T : Type} (get : I -> outcome T) (task_id : string)
    (last_error : option exn) (ids : list I) : outcome T :=
  match ids with
  | [] =>
      match last_error with
      | Some _ => Raise (ValueError ("Task not found: " ++ task_id))
      | None => Raise (ValueError ("Task not found: " ++ task_id))
      end
  | id :: rest =>
      match get id with
      | Ret t => Ret t
      | Raise (HTTPStatusError s) => any_project_loop get task_id (Some (HTTPStatusError s)) rest
      | Raise x => Raise x
      end
  end.

Definition get_task_any_project {I T : Type} (projects : outcome (list I))
    (get : I -> outcome T) (task_id : string) : outcome T :=
  match projects with
  | Raise x => Raise x
  | Ret ids => any_project_loop get task_id None ids
  end.

(** [except httpx.HTTPStatusError] *)
Definition is_status_error {A : Type} (o : outcome A) : bool :=
  match o with Raise (HTTPStatusError _) => true | _ => false end.

(** ** Concrete runs *)

(** Every port binds, the browser opens, [token_urlsafe] gave ["S"]. *)
Definition demo_env (reqs : list string) (reply : http_reply) : env :=
  {| env_bindable := fun _ => true; env_listen_ok := true; env_token := "S";
     env_browser_ok := true; env_requests := reqs; env_token_reply := reply |}.

(** The token endpoint answering [{"access_token": "AT1", "refresh_token": "RT1"}]. *)
Definition reply_ok : http_reply :=
  Reply 200 (JObj [("access_token", VStr "AT1"); ("refresh_token", VStr "RT1")]).

(** The same world with no port that binds, or with a browser that fails. *)
Definition busy_env (reqs : list string) (reply : http_reply) : env :=
  {| env_bindable := fun _ => false; env_listen_ok := true; env_token := "S";
     env_browser_ok := true; env_requests := reqs; env_token_reply := reply |}.

Definition no_browser_env (reqs : list string) (reply : http_reply) : env :=
  {| env_bindable := fun _ => true; env_listen_ok := true; env_token := "S";
     env_browser_ok := false; env_requests := reqs; env_token_reply := reply |}.

Definition demo_world : world :=
  {| handler := reset_state; srv_port := 8080; srv_server := None;
     srv_thread := false; trace := [] |}.

(** ** The flow, step by step *)

Definition auth_url_of (e : env) (cid secret : string) (p : Z) : string :=
  fst (get_authorization_url (mk_auth cid secret (redirect_uri_of_port p)) None (env_token e)).

(** The world a flow leaves behind once [stop()] has run. *)
Definition stopped (e : env) (p : Z) (tr : list event) : world :=
  {| handler := serve (env_requests e) reset_state; srv_port := p;
     srv_server := None; srv_thread := false; trace := EvStop :: tr |}.

Lemma get_authorization_url_state (a : TickTickAuth) (fresh : string) :
  snd (get_authorization_url a None fresh) = fresh.
Proof. reflexivity. Qed.

(** With the listener up and the browser opened, the flow is decided by the
    shared state the wait reads and by the token endpoint. *)
Lemma flow_run (e : env) (cid secret : string) (w : world) (p : Z) :
  find_available_port (env_bindable e) 8080 = Ret p ->
  env_listen_ok e = true ->
  env_browser_ok e = true ->
  let st := serve (env_requests e) reset_state in
  let base := EvBrowser (auth_url_of e cid secret p) :: EvListen p :: trace w in
  perform_oauth_flow e cid secret w =
    if truthy_opt (error st) then
      (Ret (VNone, VNone, str_or_none (error st)), stopped e p base)
    else if negb (truthy_opt (auth_code st)) then
      (Ret (VNone, VNone, VStr "Authorization timed out"), stopped e p base)
    else if state_differs (auth_state st) (env_token e) then
      (Ret (VNone, VNone, VStr "State mismatch - possible CSRF attack"), stopped e p base)
    else
      let c := match auth_code st with Some x => x | None => "" end in
      (match post_json (env_token_reply e) with
       | Ret d => Ret (dict_get "access_token" d, dict_get "refresh_token" d, VNone)
       | Raise x => Raise x
       end, stopped e p (EvExchange c :: base)).
Proof.
  intros Hp Hl Hb st base.
  unfold perform_oauth_flow, start, flow_body, try_finally, bind, get, put, ret,
    throw, lift, log, set_handler, stop, wait_for_callback, exchange_code; cbn.
  rewrite Hp, Hl; cbn. rewrite Hb; cbn.
  fold st. unfold auth_url_of, stopped, server_redirect_uri; cbn. fold st base.
  destruct (truthy_opt (error st)); [reflexivity|].
  destruct (truthy_opt (auth_code st)); [|reflexivity].
  destruct (state_differs (auth_state st) (env_token e)); [reflexivity|].
  destruct (post_json (env_token_reply e)); reflexivity.
Qed.

Lemma flow_start_fails (e : env) (cid secret : string) (w : world) (x : exn) :
  find_available_port (env_bindable e) 8080 = Raise x ->
  perform_oauth_flow e cid secret w =
    (Raise x, {| handler := reset_state; srv_port := 8080; srv_server := None;
                 srv_thread := false; trace := trace w |}).
Proof.
  intros Hp. unfold perform_oauth_flow, start, bind, get, put, lift, set_handler; cbn.
  rewrite Hp. reflexivity.
Qed.

Lemma flow_listen_fails (e : env) (cid secret : string) (w : world) (p : Z) :
  find_available_port (env_bindable e) 8080 = Ret p ->
  env_listen_ok e = false ->
  perform_oauth_flow e cid secret w =
    (Raise OSError, {| handler := reset_state; srv_port := p; srv_server := None;
                       srv_thread := false; trace := trace w |}).
Proof.
  intros Hp Hl. unfold perform_oauth_flow, start, bind, get, put, lift, throw, set_handler; cbn.
  rewrite Hp, Hl. reflexivity.
Qed.

Lemma flow_browser_fails (e : env) (cid secret : string) (w : world) (p : Z) :
  find_available_port (env_bindable e) 8080 = Ret p ->
  env_listen_ok e = true ->
  env_browser_ok e = false ->
  perform_oauth_flow e cid secret w =
    (Raise BrowserError, {| handler := reset_state; srv_port := p; srv_server := None;
                            srv_thread := false; trace := EvStop :: EvListen p :: trace w |}).
Proof.
  intros Hp Hl Hb.
  unfold perform_oauth_flow, start, flow_body, try_finally, bind, get, put, ret,
    throw, lift, log, set_handler, stop; cbn.
  rewrite Hp, Hl; cbn. rewrite Hb. reflexivity.
Qed.

(** Case analysis on how far a flow gets before its outcome is decided. *)
Ltac flow_cases e p Hp Hl Hb :=
  destruct (find_available_port (env_bindable e) 8080) as [p|?] eqn:Hp;
  [ destruct (env_listen_ok e) eqn:Hl;
    [ destruct (env_browser_ok e) eqn:Hb | ] | ].

Ltac stopped_ok steps :=
  cbn; repeat split; exists steps; split;
  [ reflexivity | intros ? _; eexists; reflexivity ].

(** C4: on every exit path once the listener has been started, [stop()] is
    the last step of the flow: the server reference and the serving thread
    are dropped before control returns; when [start()] itself fails no
    listener was started and none is left. *)
Theorem perform_oauth_flow_stops_listener (e : env) (cid secret : string) (w : world) :
  let '(r, w') := perform_oauth_flow e cid secret w in
  srv_server w' = None /\ srv_thread w' = false /\
  exists steps, trace w' = (steps ++ trace w)%list /\
    (forall p, In (EvListen p) steps -> exists rest, steps = EvStop :: rest).
Proof.
  flow_cases e p Hp Hl Hb.
  - (* listener started, browser opened *)
    rewrite (flow_run e cid secret w p Hp Hl Hb).
    set (st := serve (env_requests e) reset_state).
    destruct (truthy_opt (error st));
      [ stopped_ok [EvStop; EvBrowser (auth_url_of e cid secret p); EvListen p] |].
    destruct (negb (truthy_opt (auth_code st)));
      [ stopped_ok [EvStop; EvBrowser (auth_url_of e cid secret p); EvListen p] |].
    destruct (state_differs (auth_state st) (env_token e));
      [ stopped_ok [EvStop; EvBrowser (auth_url_of e cid secret p); EvListen p] |].
    stopped_ok [EvStop; EvExchange (match auth_code st with Some x => x | None => "" end);
                EvBrowser (auth_url_of e cid secret p); EvListen p].
  - (* browser launch raised *)
    rewrite (flow_browser_fails e cid secret w p Hp Hl Hb). cbn. repeat split.
    exists [EvStop; EvListen p]. split; [reflexivity|]. intros q _. eexists; reflexivity.
  - (* HTTPServer could not bind: nothing was started *)
    rewrite (flow_listen_fails e cid secret w p Hp Hl). cbn. repeat split.
    exists []. split; [reflexivity|]. intros q [].
  - (* port search raised: nothing was started *)
    rewrite (flow_start_fails e cid secret w _ Hp). cbn. repeat split.
    exists []. split; [reflexivity|]. intros q [].
Qed.

Lemma truthy_opt_some (s : string) : s <> "" -> truthy_opt (Some s) = true.
Proof.
  intros H. unfold truthy_opt. destruct (String.eqb_spec s ""); [contradiction | reflexivity].
Qed.

Lemma truthy_opt_nonempty (s : option string) :
  truthy_opt s = true -> exists x, s = Some x /\ x <> "".
Proof.
  destruct s as [x|]; cbn; [|discriminate].
  destruct (String.eqb_spec x ""); cbn; [discriminate|]. intros _. eauto.
Qed.

Lemma state_differs_true (r : option string) (s : string) :
  r <> Some s -> state_differs r s = true.
Proof.
  destruct r as [x|]; cbn; [|reflexivity]. intros H.
  destruct (String.eqb_spec x s); [subst; contradiction | reflexivity].
Qed.

(** C10: when the wait reads both a non-empty code and a non-empty error,
    the error wins and the token exchange is not attempted. *)
Theorem perform_oauth_flow_error_precedence (e : env) (cid secret : string)
    (w : world) (p : Z) (c er : string) :
  find_available_port (env_bindable e) 8080 = Ret p ->
  env_listen_ok e = true ->
  env_browser_ok e = true ->
  auth_code (serve (env_requests e) reset_state) = Some c -> c <> "" ->
  error (serve (env_requests e) reset_state) = Some er -> er <> "" ->
  perform_oauth_flow e cid secret w =
    (Ret (VNone, VNone, VStr er),
     stopped e p (EvBrowser (auth_url_of e cid secret p) :: EvListen p :: trace w)).
Proof.
  intros Hp Hl Hb Hc Hc' He He'.
  rewrite (flow_run e cid secret w p Hp Hl Hb). cbn zeta.
  rewrite He, (truthy_opt_some er He'). reflexivity.
Qed.

(** C2 (as the code has it): a non-empty code, no error and a returned
    state other than the generated one (or none) end the flow with the
    message ["State mismatch - possible CSRF attack"] (no final period),
    and no exchange is made. *)
Theorem perform_oauth_flow_state_mismatch (e : env) (cid secret : string)
    (w : world) (p : Z) (c : string) :
  find_available_port (env_bindable e) 8080 = Ret p ->
  env_listen_ok e = true ->
  env_browser_ok e = true ->
  auth_code (serve (env_requests e) reset_state) = Some c -> c <> "" ->
  error (serve (env_requests e) reset_state) = None ->
  auth_state (serve (env_requests e) reset_state) <> Some (env_token e) ->
  perform_oauth_flow e cid secret w =
    (Ret (VNone, VNone, VStr "State mismatch - possible CSRF attack"),
     stopped e p (EvBrowser (auth_url_of e cid secret p) :: EvListen p :: trace w)).
Proof.
  intros Hp Hl Hb Hc Hc' He Hs.
  rewrite (flow_run e cid secret w p Hp Hl Hb). cbn zeta.
  rewrite He, Hc, (truthy_opt_some c Hc'), (state_differs_true _ _ Hs). reflexivity.
Qed.

(** C1 (as the code has it): a flow that returns either failed with
    [(None, None, message)] and a non-empty message, or passes on the
    [access_token] and [refresh_token] entries of the token response,
    [None] when absent: the access token is not checked. *)
Theorem perform_oauth_flow_result_shape (e : env) (cid secret : string)
    (w w' : world) (a r m : pyval) :
  perform_oauth_flow e cid secret w = (Ret (a, r, m), w') ->
  (a = VNone /\ r = VNone /\ exists msg, m = VStr msg /\ msg <> "") \/
  (m = VNone /\ exists d, post_json (env_token_reply e) = Ret d /\
                          a = dict_get "access_token" d /\ r = dict_get "refresh_token" d).
Proof.
  intros H. flow_cases e p Hp Hl Hb.
  - rewrite (flow_run e cid secret w p Hp Hl Hb) in H. cbn zeta in H.
    destruct (truthy_opt (error (serve (env_requests e) reset_state))) eqn:He.
    { apply truthy_opt_nonempty in He as (x & Hx & Hx').
      rewrite Hx in H. injection H as <- <- <- _. left; eauto. }
    destruct (negb (truthy_opt (auth_code (serve (env_requests e) reset_state)))).
    { injection H as <- <- <- _. left; repeat split; eexists; split; [reflexivity|discriminate]. }
    destruct (state_differs _ _).
    { injection H as <- <- <- _. left; repeat split; eexists; split; [reflexivity|discriminate]. }
    destruct (post_json (env_token_reply e)) as [d|x] eqn:Hd; [|discriminate].
    injection H as <- <- <- _. right; eauto.
  - rewrite (flow_browser_fails e cid secret w p Hp Hl Hb) in H; discriminate.
  - rewrite (flow_listen_fails e cid secret w p Hp Hl) in H; discriminate.
  - rewrite (flow_start_fails e cid secret w _ Hp) in H; discriminate.
Qed.

(** C3 (as the code has it): nothing is caught, so every exception
    propagates to the caller.  A failing port search or bind of the listener
    raises before anything was started; a failing browser launch, and a
    token exchange that raises ([raise_for_status], transport or JSON
    errors) once the callback passed every check, raise only after
    [stop()] has dropped the server and its thread.  Conversely, an
    exception leaving [perform_oauth_flow] comes from one of these four
    steps. *)
Theorem perform_oauth_flow_exceptions (e : env) (cid secret : string) (w : world) :
  (forall x, find_available_port (env_bindable e) 8080 = Raise x ->
     perform_oauth_flow e cid secret w =
       (Raise x, {| handler := reset_state; srv_port := 8080; srv_server := None;
                    srv_thread := false; trace := trace w |})) /\
  (forall p, find_available_port (env_bindable e) 8080 = Ret p ->
     env_listen_ok e = false ->
     perform_oauth_flow e cid secret w =
       (Raise OSError, {| handler := reset_state; srv_port := p; srv_server := None;
                          srv_thread := false; trace := trace w |})) /\
  (forall p, find_available_port (env_bindable e) 8080 = Ret p ->
     env_listen_ok e = true -> env_browser_ok e = false ->
     perform_oauth_flow e cid secret w =
       (Raise BrowserError, {| handler := reset_state; srv_port := p; srv_server := None;
                               srv_thread := false; trace := EvStop :: EvListen p :: trace w |})) /\
  (forall p c x, find_available_port (env_bindable e) 8080 = Ret p ->
     env_listen_ok e = true -> env_browser_ok e = true ->
     auth_code (serve (env_requests e) reset_state) = Some c -> c <> "" ->
     error (serve (env_requests e) reset_state) = None ->
     auth_state (serve (env_requests e) reset_state) = Some (env_token e) ->
     post_json (env_token_reply e) = Raise x ->
     perform_oauth_flow e cid secret w =
       (Raise x, stopped e p (EvExchange c :: EvBrowser (auth_url_of e cid secret p) ::
                              EvListen p :: trace w))) /\
  (forall x w', perform_oauth_flow e cid secret w = (Raise x, w') ->
     find_available_port (env_bindable e) 8080 = Raise x \/
     (x = OSError /\ env_listen_ok e = false) \/
     (x = BrowserError /\ env_browser_ok e = false) \/
     post_json (env_token_reply e) = Raise x).
Proof.
  split; [intros x Hp; exact (flow_start_fails e cid secret w x Hp)|].
  split; [intros p Hp Hl; exact (flow_listen_fails e cid secret w p Hp Hl)|].
  split; [intros p Hp Hl Hb; exact (flow_browser_fails e cid secret w p Hp Hl Hb)|].
  split.
  { intros p c x Hp Hl Hb Hc Hc' He Hs Hd.
    rewrite (flow_run e cid secret w p Hp Hl Hb). cbn zeta.
    rewrite He, Hc, (truthy_opt_some c Hc'), Hs. cbn [truthy_opt negb state_differs].
    rewrite String.eqb_refl, Hd. reflexivity. }
  intros x w' H. flow_cases e p Hp Hl Hb.
  - rewrite (flow_run e cid secret w p Hp Hl Hb) in H. cbn zeta in H.
    destruct (truthy_opt _); [discriminate|].
    destruct (negb _); [discriminate|].
    destruct (state_differs _ _); [discriminate|].
    destruct (post_json (env_token_reply e)) as [d|y] eqn:Hd; [discriminate|].
    injection H as <- _. auto.
  - rewrite (flow_browser_fails e cid secret w p Hp Hl Hb) in H.
    injection H as <- _. auto.
  - rewrite (flow_listen_fails e cid secret w p Hp Hl) in H.
    injection H as <- _. auto.
  - rewrite (flow_start_fails e cid secret w _ Hp) in H.
    injection H as <- _. auto.
Qed.

(** ** Port search *)

Lemma scan_ports_spec (b : Z -> bool) (n : nat) :
  forall port, 0 <= port -> port + Z.of_nat n <= 65536 ->
  (forall q, scan_ports b port n = Ret (Some q) <->
     (port <= q < port + Z.of_nat n /\ b q = true /\
      forall r, port <= r < q -> b r = false)) /\
  (scan_ports b port n = Ret None <->
     forall r, port <= r < port + Z.of_nat n -> b r = false).
Proof.
  induction n as [|n IH]; intros port H0 H1.
  - cbn. split.
    + intros q; split; [discriminate | lia].
    + split; [intros _ r Hr; lia | reflexivity].
  - cbn [scan_ports].
    assert (Hr : (0 <=? port) && (port <=? 65535) = true).
    { apply andb_true_intro; split; [apply Z.leb_le | apply Z.leb_le]; lia. }
    rewrite Hr.
    destruct (b port) eqn:Hb.
    + split.
      * intros q; split.
        -- intros H; injection H as <-. repeat split; try lia; auto.
        -- intros (Hq & Hbq & Hbefore).
           destruct (Z.eq_dec q port) as [->|Hne]; [reflexivity|].
           rewrite (Hbefore port) in Hb; [discriminate | lia].
      * split; [discriminate|].
        intros Hall. rewrite (Hall port) in Hb; [discriminate | lia].
    + destruct (IH (port + 1)) as [IHs IHn]; [lia | lia |].
      split.
      * intros q. rewrite IHs. split.
        -- intros (Hq & Hbq & Hbefore). repeat split; try lia; auto.
           intros r Hr'. destruct (Z.eq_dec r port) as [->|Hne]; [assumption|].
           apply Hbefore; lia.
        -- intros (Hq & Hbq & Hbefore).
           destruct (Z.eq_dec q port) as [->|Hne]; [congruence|].
           repeat split; try lia; auto.
           intros r Hr'; apply Hbefore; lia.
      * rewrite IHn. split.
        -- intros Hall r Hr'. destruct (Z.eq_dec r port) as [->|Hne]; [assumption|].
           apply Hall; lia.
        -- intros Hall r Hr'. apply Hall; lia.
Qed.

(** C5 (as the code has it): with the window [p, p+100) inside the port
    range, the search returns the first port whose probe binds, and raises
    [RuntimeError("No available ports found starting from p")] when none
    does. *)
Theorem find_available_port_first (b : Z -> bool) (p : Z) :
  0 <= p -> p + 100 <= 65536 ->
  (forall q, find_available_port b p = Ret q <->
     (p <= q < p + 100 /\ b q = true /\ forall r, p <= r < q -> b r = false)) /\
  ((forall r, p <= r < p + 100 -> b r = false) ->
   find_available_port b p =
     Raise (RuntimeError ("No available ports found starting from " ++ str_of_Z p))).
Proof.
  intros H0 H1.
  destruct (scan_ports_spec b 100 p H0 H1) as [Hs Hn].
  unfold find_available_port. split.
  - intros q. rewrite <- Hs.
    destruct (scan_ports b p 100) as [[q'|]|x]; split; intros H; try discriminate;
      injection H as ->; reflexivity.
  - intros Hall. apply Hn in Hall. rewrite Hall. reflexivity.
Qed.

(** ** Refresh *)

Lemma post_json_no_value_error (reply : http_reply) (msg : string) :
  post_json reply <> Raise (ValueError msg).
Proof.
  destruct reply as [|status [d| |]]; cbn; try discriminate;
    destruct ((200 <=? status) && (status <? 300)); discriminate.
Qed.

(** C8 (as the code has it): [refresh_access_token] raises
    [ValueError("No refresh token available")] exactly when the held refresh
    token is falsy ([None] or empty), and a successful response without a
    [refresh_token] key keeps the held one. *)
Theorem refresh_access_token_spec (reply : http_reply) (a : TickTickAuth) :
  (fst (refresh_access_token reply a) = Raise (ValueError "No refresh token available")
     <-> truthy (refresh_token_ a) = false) /\
  (forall d a', refresh_access_token reply a = (Ret d, a') ->
     dict_has "refresh_token" d = false -> refresh_token_ a' = refresh_token_ a).
Proof.
  unfold refresh_access_token. split.
  - destruct (truthy (refresh_token_ a)); cbn.
    + split; [|discriminate]. intros H.
      destruct (post_json reply) as [d|x] eqn:Hp; cbn in H; [discriminate|].
      injection H as ->. exfalso; exact (post_json_no_value_error reply _ Hp).
    + split; reflexivity.
  - intros d a' H Hk. destruct (truthy (refresh_token_ a)); cbn in H; [|discriminate].
    destruct (post_json reply); [|discriminate].
    injection H as <- <-. cbn. rewrite Hk. reflexivity.
Qed.

(** ** The callback handler *)

Lemma unquote_nonempty (s : string) : s <> "" -> unquote s <> "".
Proof.
  destruct s as [|c t]; [contradiction|]. intros _. cbn.
  destruct (char_eqb c "%"); [|discriminate].
  destruct t as [|h1 [|h2 rest]]; try discriminate.
  destruct (hexval h1), (hexval h2); discriminate.
Qed.

Lemma unquote_plus_nonempty (s : string) : s <> "" -> unquote_plus s <> "".
Proof.
  intros H. apply unquote_nonempty. destruct s; [contradiction | discriminate].
Qed.

Lemma parse_qsl_values_nonempty (qs n v : string) :
  In (n, v) (parse_qsl qs) -> v <> "".
Proof.
  unfold parse_qsl. rewrite in_flat_map. intros (nv & _ & Hin).
  unfold parse_field in Hin. destruct nv as [|c t]; [destruct Hin|].
  destruct (split_once "=" (String c t)) as [[n' v']|]; [|destruct Hin].
  destruct v' as [|c' t']; [destruct Hin|].
  destruct Hin as [Heq|[]]. injection Heq as _ <-.
  apply unquote_plus_nonempty. discriminate.
Qed.

Lemma qs_first_in (k v : string) (ps : list (string * string)) :
  qs_first k ps = Some v -> In (k, v) ps.
Proof.
  induction ps as [|[n v'] r IH]; cbn; [discriminate|].
  destruct (String.eqb_spec n k) as [->|_].
  - intros H; injection H as ->; left; reflexivity.
  - intros H; right; auto.
Qed.

Lemma qs_first_nonempty (k v qs : string) :
  qs_first k (parse_qsl qs) = Some v -> v <> "".
Proof. intros H. exact (parse_qsl_values_nonempty qs k v (qs_first_in _ _ _ H)). Qed.

Lemma do_GET_error (r q er : string) (st : callback_state) :
  urlparse r = Ret ("/callback", q) ->
  qs_first "code" (parse_qsl q) = None ->
  qs_first "error" (parse_qsl q) = Some er ->
  do_GET r st = (Ret 400, set_error st (error_message (parse_qsl q) er)).
Proof. intros Hp Hc He. unfold do_GET. rewrite Hp. cbn -[parse_qsl]. rewrite Hc, He. reflexivity. Qed.

Lemma do_GET_code (r q c : string) (st : callback_state) :
  urlparse r = Ret ("/callback", q) ->
  qs_first "code" (parse_qsl q) = Some c ->
  do_GET r st = (Ret 200, {| auth_code := Some c; auth_state := qs_first "state" (parse_qsl q);
                             error := error st |}).
Proof. intros Hp Hc. unfold do_GET. rewrite Hp. cbn -[parse_qsl qs_first]. rewrite Hc. reflexivity. Qed.

Lemma do_GET_other (r : string) (st : callback_state) :
  is_callback r = false -> snd (do_GET r st) = st.
Proof.
  unfold is_callback, do_GET. destruct (urlparse r) as [[pp q]|x]; [|reflexivity].
  intros H. rewrite H. reflexivity.
Qed.

Lemma error_message_nonempty (q er : string) :
  qs_first "error" (parse_qsl q) = Some er ->
  error_message (parse_qsl q) er <> "".
Proof.
  intros He. unfold error_message.
  destruct (qs_first "error_description" (parse_qsl q)) eqn:Hd.
  - exact (qs_first_nonempty _ _ _ Hd).
  - exact (qs_first_nonempty _ _ _ He).
Qed.

Lemma serve_app (rs1 rs2 : list string) (st : callback_state) :
  serve (rs1 ++ rs2) st = serve rs2 (serve rs1 st).
Proof. unfold serve. apply fold_left_app. Qed.

Lemma serve_filter (rs : list string) (st : callback_state) :
  serve rs st = serve (filter is_callback rs) st.
Proof.
  revert st. induction rs as [|r rs IH]; intros st; [reflexivity|].
  cbn [filter]. destruct (is_callback r) eqn:Hr.
  - cbn [serve fold_left]. apply IH.
  - cbn [serve fold_left]. rewrite (do_GET_other r st Hr). apply IH.
Qed.

Lemma serve_no_callback (rs : list string) (st : callback_state) :
  forallb (fun r => negb (is_callback r)) rs = true -> serve rs st = st.
Proof.
  intros H. rewrite serve_filter.
  replace (filter is_callback rs) with (@nil string); [reflexivity|].
  induction rs as [|r rs IH]; [reflexivity|].
  cbn in H. apply andb_prop in H as [Hr Hrs].
  cbn. destruct (is_callback r); [discriminate|]. apply IH, Hrs.
Qed.

(** The shared state after [rs1 ++ r :: rs2] when only other requests
    follow [r]. *)
Lemma serve_last (rs1 rs2 : list string) (r : string) (st : callback_state) :
  forallb (fun q => negb (is_callback q)) rs2 = true ->
  serve (rs1 ++ r :: rs2) st = snd (do_GET r (serve rs1 st)).
Proof.
  intros H. rewrite serve_app. change (r :: rs2) with ([r] ++ rs2)%list.
  rewrite serve_app, (serve_no_callback _ _ H). reflexivity.
Qed.

(** C7 (as the code has it): a [/callback] request with an [error] and no
    [code] parameter answers 400 and records [error_description] (or
    [error]), whatever was recorded before; when it is the last [/callback]
    request before the wait reads (only requests [do_GET] does not route
    to its callback branch may follow), whatever came before it, the flow
    returns [(None, None, that text)] and makes no token exchange. *)
Theorem callback_error_passthrough (e : env) (cid secret : string) (w : world)
    (p : Z) (rs1 rs2 : list string) (r q er : string) :
  urlparse r = Ret ("/callback", q) ->
  qs_first "code" (parse_qsl q) = None ->
  qs_first "error" (parse_qsl q) = Some er ->
  forallb (fun x => negb (is_callback x)) rs2 = true ->
  find_available_port (env_bindable e) 8080 = Ret p ->
  env_listen_ok e = true ->
  env_browser_ok e = true ->
  env_requests e = (rs1 ++ r :: rs2)%list ->
  (forall st, do_GET r st = (Ret 400, set_error st (error_message (parse_qsl q) er))) /\
  perform_oauth_flow e cid secret w =
    (Ret (VNone, VNone, VStr (error_message (parse_qsl q) er)),
     stopped e p (EvBrowser (auth_url_of e cid secret p) :: EvListen p :: trace w)).
Proof.
  intros Hp Hc He Hn Hf Hl Hb Hr.
  split; [intros st; exact (do_GET_error r q er st Hp Hc He)|].
  assert (Hs : error (serve (env_requests e) reset_state) = Some (error_message (parse_qsl q) er)).
  { rewrite Hr, (serve_last _ _ _ _ Hn), (do_GET_error r q er _ Hp Hc He). reflexivity. }
  rewrite (flow_run e cid secret w p Hf Hl Hb). cbn zeta.
  rewrite Hs, (truthy_opt_some _ (error_message_nonempty q er He)). reflexivity.
Qed.

(** C6 (as the code has it): each [/callback] request overwrites the fields
    it sets whatever the shared state holds (a code request sets [auth_code]
    and [auth_state] and keeps [error]; an error request sets [error] and
    keeps the code and state).  So a code request followed by an error
    request, with no other [/callback] request after the code request,
    leaves both the code and the error set whatever came before, and the
    flow reports the error without exchanging the code. *)
Theorem callback_later_error_overwrites (e : env) (cid secret : string) (w : world)
    (p : Z) (rs1 rs2 rs3 : list string) (rc qc re qe c er : string) :
  urlparse rc = Ret ("/callback", qc) ->
  qs_first "code" (parse_qsl qc) = Some c ->
  urlparse re = Ret ("/callback", qe) ->
  qs_first "code" (parse_qsl qe) = None ->
  qs_first "error" (parse_qsl qe) = Some er ->
  forallb (fun x => negb (is_callback x)) rs2 = true ->
  forallb (fun x => negb (is_callback x)) rs3 = true ->
  find_available_port (env_bindable e) 8080 = Ret p ->
  env_listen_ok e = true ->
  env_browser_ok e = true ->
  env_requests e = (rs1 ++ rc :: rs2 ++ re :: rs3)%list ->
  (forall st, do_GET rc st =
     (Ret 200, {| auth_code := Some c; auth_state := qs_first "state" (parse_qsl qc);
                  error := error st |})) /\
  (forall st, do_GET re st =
     (Ret 400, {| auth_code := auth_code st; auth_state := auth_state st;
                  error := Some (error_message (parse_qsl qe) er) |})) /\
  serve (env_requests e) reset_state =
    {| auth_code := Some c; auth_state := qs_first "state" (parse_qsl qc);
       error := Some (error_message (parse_qsl qe) er) |} /\
  perform_oauth_flow e cid secret w =
    (Ret (VNone, VNone, VStr (error_message (parse_qsl qe) er)),
     stopped e p (EvBrowser (auth_url_of e cid secret p) :: EvListen p :: trace w)).
Proof.
  intros Hpc Hc Hpe Hce He Hn2 Hn3 Hf Hl Hb Hr.
  assert (Hs : serve (env_requests e) reset_state =
    {| auth_code := Some c; auth_state := qs_first "state" (parse_qsl qc);
       error := Some (error_message (parse_qsl qe) er) |}).
  { rewrite Hr, app_comm_cons, app_assoc, (serve_last _ _ _ _ Hn3).
    rewrite (serve_last _ _ _ _ Hn2), (do_GET_code rc qc c _ Hpc Hc).
    cbn [snd]. rewrite (do_GET_error re qe er _ Hpe Hce He). reflexivity. }
  split; [intros st; exact (do_GET_code rc qc c st Hpc Hc)|].
  split; [intros st; exact (do_GET_error re qe er st Hpe Hce He)|].
  split; [exact Hs|].
  rewrite (flow_run e cid secret w p Hf Hl Hb). cbn zeta.
  rewrite Hs. cbn [error].
  rewrite (truthy_opt_some _ (error_message_nonempty qe er He)). reflexivity.
Qed.

(** ** The authorization URL *)

Lemma has_char_app c a b : has_char c (a ++ b) = has_char c a || has_char c b.
Proof. induction a as [|x t IH]; cbn; [reflexivity|]. rewrite IH, orb_assoc. reflexivity. Qed.

Lemma quote_byte_clean (c : ascii) :
  has_char "&" (quote_byte c) = false /\ has_char "#" (quote_byte c) = false.
Proof. destruct c as [[] [] [] [] [] [] [] []]; split; reflexivity. Qed.

Lemma quote_byte_urlsafe (c : ascii) : urlsafe_char c = true ->
  quote_byte c = String c "" /\ char_eqb c "+" = false /\ char_eqb c "%" = false.
Proof. destruct c as [[] [] [] [] [] [] [] []]; cbn; try discriminate; repeat split. Qed.

Lemma quote_plus_clean (s : string) :
  has_char "&" (quote_plus s) = false /\ has_char "#" (quote_plus s) = false.
Proof.
  induction s as [|c t [IH1 IH2]]; cbn; [split; reflexivity|].
  rewrite !has_char_app, IH1, IH2. destruct (quote_byte_clean c) as [-> ->]. split; reflexivity.
Qed.

Lemma quote_plus_urlsafe (s : string) : all_chars urlsafe_char s = true -> quote_plus s = s.
Proof.
  induction s as [|c t IH]; cbn; [reflexivity|].
  intros H; apply andb_prop in H as [Hc Ht].
  destruct (quote_byte_urlsafe c Hc) as [-> _]. cbn. rewrite IH; auto.
Qed.

Lemma unquote_plus_urlsafe (s : string) : all_chars urlsafe_char s = true -> unquote_plus s = s.
Proof.
  unfold unquote_plus. induction s as [|c t IH]; cbn; [reflexivity|].
  intros H; apply andb_prop in H as [Hc Ht].
  destruct (quote_byte_urlsafe c Hc) as [_ [Hp Hpc]]. rewrite Hp, Hpc. rewrite IH; auto.
Qed.

Lemma split_once_none (c : ascii) (s : string) : has_char c s = false -> split_once c s = None.
Proof.
  induction s as [|x t IH]; cbn; [reflexivity|].
  intros H; apply orb_false_elim in H as [Hx Ht]. rewrite Hx, IH; auto.
Qed.

Lemma split_on_none (c : ascii) (s : string) : has_char c s = false -> split_on c s = [s].
Proof.
  induction s as [|x t IH]; cbn; [reflexivity|].
  intros H; apply orb_false_elim in H as [Hx Ht]. rewrite Hx, IH; auto.
Qed.

Lemma split_on_prefix (c : ascii) (a b x : string) (r : list string) :
  has_char c a = false -> split_on c b = x :: r -> split_on c (a ++ b) = (a ++ x) :: r.
Proof.
  induction a as [|y t IH]; cbn; [auto|].
  intros H Hb; apply orb_false_elim in H as [Hy Ht]. rewrite Hy, (IH Ht Hb). reflexivity.
Qed.

Lemma string_app_nil (s : string) : s ++ "" = s.
Proof. induction s as [|c t IH]; cbn; [reflexivity|]. rewrite IH. reflexivity. Qed.

Lemma has_char_concat (c : ascii) (l : list string) :
  char_eqb "&" c = false -> Forall (fun s => has_char c s = false) l ->
  has_char c (String.concat "&" l) = false.
Proof.
  intros Hc Hl. induction Hl as [|x r Hx Hr IH]; [reflexivity|].
  destruct r as [|y r'].
  - exact Hx.
  - change (String.concat "&" (x :: y :: r')) with (x ++ String "&" (String.concat "&" (y :: r'))).
    rewrite has_char_app, Hx. cbn [has_char orb]. rewrite Hc. exact IH.
Qed.

Lemma has_char_urlencode (ps : list (string * string)) :
  has_char "#" (urlencode ps) = false.
Proof.
  unfold urlencode. apply has_char_concat; [reflexivity|].
  induction ps as [|[k v] r IH]; constructor; [|exact IH].
  rewrite !has_char_app. destruct (quote_plus_clean k) as [_ ->].
  destruct (quote_plus_clean v) as [_ ->]. reflexivity.
Qed.

Lemma all_chars_app (p : ascii -> bool) (a b : string) :
  all_chars p (a ++ b) = all_chars p a && all_chars p b.
Proof. induction a as [|x t IH]; cbn; [reflexivity|]. rewrite IH, andb_assoc. reflexivity. Qed.

Lemma remove_unsafe_app (a b : string) :
  remove_unsafe (a ++ b) = remove_unsafe a ++ remove_unsafe b.
Proof.
  induction a as [|x t IH]; cbn; [reflexivity|].
  destruct (unsafe_url_byte x); rewrite IH; reflexivity.
Qed.

Definition url_safe_char (c : ascii) : bool := negb (unsafe_url_byte c).

Lemma remove_unsafe_id (s : string) : all_chars url_safe_char s = true -> remove_unsafe s = s.
Proof.
  induction s as [|x t IH]; cbn; [reflexivity|].
  intros H; apply andb_prop in H as [Hx Ht]. unfold url_safe_char in Hx.
  destruct (unsafe_url_byte x); [discriminate|]. rewrite IH; auto.
Qed.

Lemma quote_byte_url_safe (c : ascii) : all_chars url_safe_char (quote_byte c) = true.
Proof. destruct c as [[] [] [] [] [] [] [] []]; reflexivity. Qed.

Lemma quote_plus_url_safe (s : string) : all_chars url_safe_char (quote_plus s) = true.
Proof.
  induction s as [|c t IH]; cbn [quote_plus]; [reflexivity|].
  rewrite all_chars_app, quote_byte_url_safe, IH. reflexivity.
Qed.

Lemma urlencode_url_safe (ps : list (string * string)) :
  all_chars url_safe_char (urlencode ps) = true.
Proof.
  unfold urlencode. induction ps as [|[k v] r IH]; [reflexivity|].
  destruct r as [|kv r'].
  - cbn [map String.concat]. rewrite !all_chars_app, !quote_plus_url_safe. reflexivity.
  - change (String.concat "&" (map (fun '(k, v) => quote_plus k ++ "=" ++ quote_plus v)
              ((k, v) :: kv :: r')))
      with ((quote_plus k ++ "=" ++ quote_plus v) ++ String "&"
              (String.concat "&" (map (fun '(k, v) => quote_plus k ++ "=" ++ quote_plus v)
                 (kv :: r')))).
    rewrite !all_chars_app, !quote_plus_url_safe. cbn [all_chars]. rewrite IH. reflexivity.
Qed.

Lemma url_query_authorize (q : string) :
  has_char "#" q = false -> all_chars url_safe_char q = true ->
  url_query (AUTHORIZE_URL ++ "?" ++ q) = q.
Proof.
  intros Hq Hs. unfold url_query, split_components, AUTHORIZE_URL.
  cbn [append lstrip_c0 c0_control_or_space nat_of_ascii N_of_ascii N_of_digits Nat.leb].
  simpl. rewrite (remove_unsafe_id _ Hs). simpl.
  rewrite (split_once_none _ _ Hq). reflexivity.
Qed.

Lemma url_query_authorize_encode (ps : list (string * string)) :
  url_query (AUTHORIZE_URL ++ "?" ++ urlencode ps) = urlencode ps.
Proof. apply url_query_authorize; [apply has_char_urlencode | apply urlencode_url_safe]. Qed.

Lemma parse_qsl_app (a b : string) :
  has_char "&" a = false -> parse_qsl (a ++ String "&" b) = (parse_field a ++ parse_qsl b)%list.
Proof.
  intros Ha. unfold parse_qsl.
  rewrite (split_on_prefix "&" a (String "&" b) "" (split_on "&" b) Ha) by reflexivity.
  rewrite string_app_nil. reflexivity.
Qed.

Lemma qs_first_app (k : string) (l1 l2 : list (string * string)) :
  qs_first k (l1 ++ l2)%list = match qs_first k l1 with Some v => Some v | None => qs_first k l2 end.
Proof.
  induction l1 as [|[n v] r IH]; cbn; [reflexivity|].
  destruct (String.eqb n k); [reflexivity | exact IH].
Qed.

Lemma urlsafe_no_amp (s : string) : all_chars urlsafe_char s = true -> has_char "&" s = false.
Proof.
  induction s as [|c t IH]; cbn; [reflexivity|].
  intros H; apply andb_prop in H as [Hc Ht]. rewrite IH by exact Ht.
  revert Hc; destruct c as [[] [] [] [] [] [] [] []]; cbn; try discriminate; reflexivity.
Qed.

Lemma field_clean (k v : string) : has_char "&" (quote_plus k ++ "=" ++ quote_plus v) = false.
Proof.
  rewrite !has_char_app. destruct (quote_plus_clean k) as [-> _].
  destruct (quote_plus_clean v) as [-> _]. reflexivity.
Qed.

Lemma amp_app (s : string) : "&" ++ s = String "&" s.
Proof. reflexivity. Qed.

Lemma parse_field_state (tok : string) :
  tok <> "" -> all_chars urlsafe_char tok = true ->
  parse_field (quote_plus "state" ++ "=" ++ tok) = [("state", tok)].
Proof.
  intros Hne Ht. destruct tok as [|t0 ts]; [contradiction|].
  change (parse_field (quote_plus "state" ++ "=" ++ String t0 ts))
    with [(unquote_plus "state", unquote_plus (String t0 ts))].
  rewrite (unquote_plus_urlsafe _ Ht). reflexivity.
Qed.

Lemma query_state (cid ruri tok : string) :
  tok <> "" -> all_chars urlsafe_char tok = true ->
  qs_first "state" (parse_qsl (urlencode
    [("client_id", cid); ("redirect_uri", ruri); ("response_type", "code");
     ("scope", "tasks:read tasks:write"); ("state", tok)])) = Some tok.
Proof.
  intros Hne Ht. unfold urlencode. cbn [map String.concat].
  rewrite !amp_app, !parse_qsl_app by apply field_clean.
  rewrite !qs_first_app, (quote_plus_urlsafe tok Ht).
  unfold parse_qsl at 1.
  rewrite (split_on_none "&" (quote_plus "state" ++ "=" ++ tok)).
  2:{ rewrite !has_char_app, (urlsafe_no_amp tok Ht). reflexivity. }
  cbn [flat_map]. rewrite app_nil_r, (parse_field_state tok Hne Ht).
  destruct (quote_plus cid), (quote_plus ruri); reflexivity.
Qed.

(** C9: the [state] query parameter of the authorization URL is the state
    returned with it, for any [token_urlsafe] value; it is the value the
    flow compares: a callback that returns the URL's state (with a code and
    no error) passes the check and the code is exchanged. *)
Theorem authorization_url_state_roundtrip (e : env) (cid secret : string)
    (w : world) (p : Z) (c : string) :
  env_token e <> "" ->
  all_chars urlsafe_char (env_token e) = true ->
  find_available_port (env_bindable e) 8080 = Ret p ->
  env_listen_ok e = true ->
  env_browser_ok e = true ->
  auth_code (serve (env_requests e) reset_state) = Some c -> c <> "" ->
  error (serve (env_requests e) reset_state) = None ->
  auth_state (serve (env_requests e) reset_state) =
    qs_first "state" (parse_qsl (url_query (auth_url_of e cid secret p))) ->
  (forall a, snd (get_authorization_url a None (env_token e)) = env_token e /\
     qs_first "state" (parse_qsl (url_query (fst (get_authorization_url a None (env_token e)))))
       = Some (env_token e)) /\
  exists r, perform_oauth_flow e cid secret w =
    (r, stopped e p (EvExchange c :: EvBrowser (auth_url_of e cid secret p) :: EvListen p :: trace w)).
Proof.
  intros Hne Ht Hp Hl Hb Hc Hc' He Hs.
  assert (Hurl : forall a, snd (get_authorization_url a None (env_token e)) = env_token e /\
     qs_first "state" (parse_qsl (url_query (fst (get_authorization_url a None (env_token e)))))
       = Some (env_token e)).
  { intros a. split; [reflexivity|].
    change (fst (get_authorization_url a None (env_token e))) with
      (AUTHORIZE_URL ++ "?" ++ urlencode
        [("client_id", client_id a); ("redirect_uri", redirect_uri a);
         ("response_type", "code"); ("scope", "tasks:read tasks:write");
         ("state", env_token e)]).
    rewrite url_query_authorize_encode.
    apply query_state; assumption. }
  split; [exact Hurl|].
  rewrite (flow_run e cid secret w p Hp Hl Hb). cbn zeta.
  rewrite He, Hc, (truthy_opt_some c Hc'). cbn [truthy_opt negb].
  rewrite Hs. unfold auth_url_of. rewrite (proj2 (Hurl _)). cbn [state_differs].
  rewrite String.eqb_refl. cbn [negb]. eexists; reflexivity.
Qed.

(** ** Concrete runs *)

Example unquote_ex : unquote_plus "User%20declined" = "User declined".
Proof. reflexivity. Qed.
Example urlparse_path_ex : urlparse "/callback;x?code=1#f" = Ret ("/callback", "code=1").
Proof. vm_compute. reflexivity. Qed.
(** Leading control characters and spaces are stripped, tabs dropped. *)
Example urlparse_strip_ex :
  urlparse (String "001" "/call	back?code=c") = Ret ("/callback", "code=c").
Proof. vm_compute. reflexivity. Qed.
(** A malformed bracketed host makes [urlparse], hence [do_GET], raise. *)
Example urlparse_raise_ex :
  urlparse "http://[/callback?error=x" = Raise (ValueError "Invalid IPv6 URL") /\
  urlparse "http://[1.2.3.4]/callback" = Raise (ValueError "An IPv4 address cannot be in brackets") /\
  urlparse "http://[::1]/callback?code=c" = Ret ("/callback", "code=c").
Proof. vm_compute. repeat split. Qed.
Example parse_ex :
  parse_qsl (url_query "/callback?error=access_denied&error_description=User%20declined&x=&y")
  = [("error", "access_denied"); ("error_description", "User declined")].
Proof. reflexivity. Qed.
Example abs_ex : urlparse "http://localhost:8080/callback?code=1" = Ret ("/callback", "code=1").
Proof. vm_compute. reflexivity. Qed.
Example str_of_Z_ex : str_of_Z 8080 = "8080" /\ str_of_Z (-3) = "-3".
Proof. split; reflexivity. Qed.


Example flow_success_ex :
  fst (perform_oauth_flow (demo_env ["/callback?code=abc123&state=S"] reply_ok)
         "id" "secret" demo_world) = Ret (VStr "AT1", VStr "RT1", VNone).
Proof. vm_compute. reflexivity. Qed.

Ltac neq_by_compute := let H := fresh in intro H; vm_compute in H; discriminate H.

(** C1 refuted: a token response without [access_token] yields a result in
    which neither the access token nor the error is set. *)
Lemma perform_oauth_flow_missing_access_token :
  fst (perform_oauth_flow
         (demo_env ["/callback?code=abc123&state=S"]
                   (Reply 200 (JObj [("refresh_token", VStr "RT1")])))
         "id" "secret" demo_world) = Ret (VNone, VStr "RT1", VNone).
Proof. vm_compute. reflexivity. Qed.

Lemma perform_oauth_flow_result_shape_witness :
  (VStr "AT1" = VNone /\ VStr "RT1" = VNone /\ exists msg, VNone = VStr msg /\ msg <> "") \/
  (VNone = VNone /\ exists d, post_json reply_ok = Ret d /\
     VStr "AT1" = dict_get "access_token" d /\ VStr "RT1" = dict_get "refresh_token" d).
Proof.
  apply (perform_oauth_flow_result_shape (demo_env ["/callback?code=abc123&state=S"] reply_ok)
           "id" "secret" demo_world
           (snd (perform_oauth_flow (demo_env ["/callback?code=abc123&state=S"] reply_ok)
                   "id" "secret" demo_world))).
  vm_compute. reflexivity.
Defined.

(** C2 refuted as worded: the message has no final period. *)
Lemma perform_oauth_flow_csrf_message :
  fst (perform_oauth_flow (demo_env ["/callback?code=abc123&state=WRONG"] reply_ok)
         "id" "secret" demo_world)
  <> Ret (VNone, VNone, VStr "State mismatch - possible CSRF attack.").
Proof. neq_by_compute. Qed.

Lemma perform_oauth_flow_state_mismatch_witness :
  perform_oauth_flow (demo_env ["/callback?code=abc123&state=WRONG"] reply_ok)
    "id" "secret" demo_world =
    (Ret (VNone, VNone, VStr "State mismatch - possible CSRF attack"),
     stopped (demo_env ["/callback?code=abc123&state=WRONG"] reply_ok) 8080
       [EvBrowser (auth_url_of (demo_env ["/callback?code=abc123&state=WRONG"] reply_ok)
                     "id" "secret" 8080); EvListen 8080]).
Proof.
  apply (perform_oauth_flow_state_mismatch _ "id" "secret" demo_world 8080 "abc123");
    try (vm_compute; reflexivity); try discriminate; neq_by_compute.
Defined.

(** C3 refuted: a non-2xx token response, a full port window and a failing
    browser launch all raise out of [perform_oauth_flow]. *)
Lemma perform_oauth_flow_exceptions_escape :
  fst (perform_oauth_flow (demo_env ["/callback?code=abc123&state=S"] (Reply 400 (JObj [])))
         "id" "secret" demo_world) = Raise (HTTPStatusError 400) /\
  fst (perform_oauth_flow (busy_env [] reply_ok) "id" "secret" demo_world)
    = Raise (RuntimeError "No available ports found starting from 8080") /\
  fst (perform_oauth_flow (no_browser_env [] reply_ok) "id" "secret" demo_world)
    = Raise BrowserError.
Proof. vm_compute. repeat split. Qed.

Lemma perform_oauth_flow_exceptions_witness :
  perform_oauth_flow (demo_env ["/callback?code=abc123&state=S"] (Reply 400 (JObj [])))
    "id" "secret" demo_world =
  (Raise (HTTPStatusError 400),
   stopped (demo_env ["/callback?code=abc123&state=S"] (Reply 400 (JObj []))) 8080
     (EvExchange "abc123" ::
      EvBrowser (auth_url_of (demo_env ["/callback?code=abc123&state=S"] (Reply 400 (JObj [])))
                   "id" "secret" 8080) :: EvListen 8080 :: trace demo_world)).
Proof.
  refine (proj1 (proj2 (proj2 (proj2 (perform_oauth_flow_exceptions
    (demo_env ["/callback?code=abc123&state=S"] (Reply 400 (JObj []))) "id" "secret" demo_world))))
    8080 "abc123" (HTTPStatusError 400) _ _ _ _ _ _ _ _);
    try discriminate; vm_compute; reflexivity.
Defined.

(** C5 refuted as worded: a full window raises a plain [RuntimeError], and a
    window reaching past port 65535 raises [OverflowError]. *)
Lemma find_available_port_errors :
  find_available_port (fun _ => false) 8080
    = Raise (RuntimeError "No available ports found starting from 8080") /\
  find_available_port (fun _ => false) 65500 = Raise OverflowError.
Proof. split; vm_compute; reflexivity. Qed.

Lemma find_available_port_first_witness :
  (forall q, find_available_port (fun q => q =? 8082) 8080 = Ret q <->
     (8080 <= q < 8080 + 100 /\ (q =? 8082) = true /\
      forall r, 8080 <= r < q -> (r =? 8082) = false)) /\
  ((forall r, 8080 <= r < 8080 + 100 -> (r =? 8082) = false) ->
   find_available_port (fun q => q =? 8082) 8080 =
     Raise (RuntimeError ("No available ports found starting from " ++ str_of_Z 8080))).
Proof. apply find_available_port_first; lia. Defined.

(** C6 refuted: after a code request and then an error request, the flow
    reports the error and never exchanges the code. *)
Lemma callback_second_request_wins :
  let e := demo_env ["/callback?code=abc123&state=S"; "/callback?error=access_denied"] reply_ok in
  fst (perform_oauth_flow e "id" "secret" demo_world) = Ret (VNone, VNone, VStr "access_denied") /\
  ~ In (EvExchange "abc123") (trace (snd (perform_oauth_flow e "id" "secret" demo_world))).
Proof.
  cbv zeta. split; [vm_compute; reflexivity|].
  let H := fresh in intro H; vm_compute in H; intuition discriminate.
Qed.

Lemma callback_later_error_overwrites_witness :
  serve ["/callback?code=abc123&state=S"; "/favicon.ico"; "/callback?error=access_denied"]
    {| auth_code := Some "old"; auth_state := None; error := Some "earlier" |} =
    {| auth_code := Some "abc123"; auth_state := Some "S"; error := Some "access_denied" |} /\
  perform_oauth_flow
    (demo_env ["/callback?error=x"; "/callback?code=abc123&state=S"; "/favicon.ico";
               "/callback?error=access_denied"; "http://[/callback?code=zzz"] reply_ok)
    "id" "secret" demo_world =
  (Ret (VNone, VNone, VStr "access_denied"),
   stopped (demo_env ["/callback?error=x"; "/callback?code=abc123&state=S"; "/favicon.ico";
                      "/callback?error=access_denied"; "http://[/callback?code=zzz"] reply_ok) 8080
     [EvBrowser (auth_url_of
        (demo_env ["/callback?error=x"; "/callback?code=abc123&state=S"; "/favicon.ico";
                   "/callback?error=access_denied"; "http://[/callback?code=zzz"] reply_ok)
        "id" "secret" 8080); EvListen 8080]).
Proof.
  pose proof (callback_later_error_overwrites
    (demo_env ["/callback?error=x"; "/callback?code=abc123&state=S"; "/favicon.ico";
               "/callback?error=access_denied"; "http://[/callback?code=zzz"] reply_ok)
    "id" "secret" demo_world 8080 ["/callback?error=x"] ["/favicon.ico"] ["http://[/callback?code=zzz"]
    "/callback?code=abc123&state=S" "code=abc123&state=S"
    "/callback?error=access_denied" "error=access_denied" "abc123" "access_denied")
    as H.
  destruct H as (Hc & He & _ & Hf); try (vm_compute; reflexivity).
  split; [|exact Hf].
  cbn [serve fold_left]. rewrite Hc. cbn [snd].
  change (snd (do_GET "/favicon.ico"
    {| auth_code := Some "abc123"; auth_state := qs_first "state" (parse_qsl "code=abc123&state=S");
       error := error {| auth_code := Some "old"; auth_state := None; error := Some "earlier" |} |}))
    with {| auth_code := Some "abc123"; auth_state := qs_first "state" (parse_qsl "code=abc123&state=S");
       error := error {| auth_code := Some "old"; auth_state := None; error := Some "earlier" |} |}.
  rewrite He. vm_compute. reflexivity.
Defined.

(** C7 refuted as worded: a request carrying both [code] and [error] records
    the code, not the error. *)
Lemma callback_error_with_code :
  do_GET "/callback?code=abc123&error=access_denied&error_description=User%20declined" reset_state
  = (Ret 200, {| auth_code := Some "abc123"; auth_state := None; error := None |}) /\
  fst (perform_oauth_flow
         (demo_env ["/callback?code=abc123&error=access_denied&error_description=User%20declined"]
                   reply_ok) "id" "secret" demo_world)
  = Ret (VNone, VNone, VStr "State mismatch - possible CSRF attack").
Proof. split; vm_compute; reflexivity. Qed.

Lemma callback_error_passthrough_witness :
  perform_oauth_flow
    (demo_env ["/callback?code=abc123&state=S";
               "/callback?error=access_denied&error_description=User%20declined";
               "/favicon.ico"] reply_ok)
    "id" "secret" demo_world =
  (Ret (VNone, VNone, VStr "User declined"),
   stopped (demo_env ["/callback?code=abc123&state=S";
                      "/callback?error=access_denied&error_description=User%20declined";
                      "/favicon.ico"] reply_ok)
     8080 [EvBrowser (auth_url_of
             (demo_env ["/callback?code=abc123&state=S";
                        "/callback?error=access_denied&error_description=User%20declined";
                        "/favicon.ico"] reply_ok)
             "id" "secret" 8080); EvListen 8080]).
Proof.
  refine (proj2 (callback_error_passthrough
    (demo_env ["/callback?code=abc123&state=S";
               "/callback?error=access_denied&error_description=User%20declined";
               "/favicon.ico"] reply_ok)
    "id" "secret" demo_world 8080 ["/callback?code=abc123&state=S"] ["/favicon.ico"]
    "/callback?error=access_denied&error_description=User%20declined"
    "error=access_denied&error_description=User%20declined" "access_denied"
    _ _ _ _ _ _ _ _)); vm_compute; reflexivity.
Defined.

(** C8 refuted as worded: the missing refresh token raises [ValueError]. *)
Lemma refresh_without_token :
  fst (refresh_access_token reply_ok (mk_auth "id" "secret" "http://localhost:8080/callback"))
  = Raise (ValueError "No refresh token available").
Proof. vm_compute. reflexivity. Qed.

Lemma authorization_url_state_roundtrip_witness :
  exists r, perform_oauth_flow (demo_env ["/callback?code=abc123&state=S"] reply_ok)
    "id" "secret" demo_world =
    (r, stopped (demo_env ["/callback?code=abc123&state=S"] reply_ok) 8080
          [EvExchange "abc123";
           EvBrowser (auth_url_of (demo_env ["/callback?code=abc123&state=S"] reply_ok)
                        "id" "secret" 8080); EvListen 8080]).
Proof.
  refine (proj2 (authorization_url_state_roundtrip
    (demo_env ["/callback?code=abc123&state=S"] reply_ok) "id" "secret" demo_world 8080 "abc123"
    _ _ _ _ _ _ _ _ _)); try (vm_compute; reflexivity); discriminate.
Defined.

Lemma perform_oauth_flow_error_precedence_witness :
  perform_oauth_flow
    (demo_env ["/callback?code=abc123&state=S"; "/callback?error=access_denied"] reply_ok)
    "id" "secret" demo_world =
  (Ret (VNone, VNone, VStr "access_denied"),
   stopped (demo_env ["/callback?code=abc123&state=S"; "/callback?error=access_denied"] reply_ok)
     8080 [EvBrowser (auth_url_of
             (demo_env ["/callback?code=abc123&state=S"; "/callback?error=access_denied"] reply_ok)
             "id" "secret" 8080); EvListen 8080]).
Proof.
  apply (perform_oauth_flow_error_precedence _ "id" "secret" demo_world 8080 "abc123" "access_denied");
    try (vm_compute; reflexivity); discriminate.
Defined.

(** * Further properties of the code *)

(** ** Callback routing and the flow's outcomes *)

(** X1: requests that [do_GET] does not route to its callback branch (other
    paths, and targets on which [urlparse] raises) leave the shared state as
    it is: serving a sequence of requests is the same as serving only its
    [/callback] requests. *)
Theorem serve_ignores_other_paths (rs : list string) (st : callback_state) :
  serve rs st = serve (filter is_callback rs) st.
Proof. apply serve_filter. Qed.

Lemma do_GET_neither (r q : string) (st : callback_state) :
  urlparse r = Ret ("/callback", q) ->
  qs_first "code" (parse_qsl q) = None ->
  qs_first "error" (parse_qsl q) = None ->
  do_GET r st = (Ret 400, set_error st "No authorization code received").
Proof. intros Hp Hc He. unfold do_GET. rewrite Hp. cbn -[parse_qsl]. rewrite Hc, He. reflexivity. Qed.

(** X2: a [/callback] request with neither [code] nor [error] is answered
    400 and records "No authorization code received", whatever was recorded
    before; when it is the last [/callback] request before the wait reads,
    the flow fails with that message. *)
Theorem callback_without_code_or_error (e : env) (cid secret : string) (w : world)
    (p : Z) (rs1 rs2 : list string) (r q : string) :
  urlparse r = Ret ("/callback", q) ->
  qs_first "code" (parse_qsl q) = None ->
  qs_first "error" (parse_qsl q) = None ->
  forallb (fun x => negb (is_callback x)) rs2 = true ->
  find_available_port (env_bindable e) 8080 = Ret p ->
  env_listen_ok e = true ->
  env_browser_ok e = true ->
  env_requests e = (rs1 ++ r :: rs2)%list ->
  (forall st, do_GET r st = (Ret 400, set_error st "No authorization code received")) /\
  perform_oauth_flow e cid secret w =
    (Ret (VNone, VNone, VStr "No authorization code received"),
     stopped e p (EvBrowser (auth_url_of e cid secret p) :: EvListen p :: trace w)).
Proof.
  intros Hp Hc He Hn Hf Hl Hb Hr.
  split; [intros st; exact (do_GET_neither r q st Hp Hc He)|].
  assert (Hs : error (serve (env_requests e) reset_state) = Some "No authorization code received").
  { rewrite Hr, (serve_last _ _ _ _ Hn), (do_GET_neither r q _ Hp Hc He). reflexivity. }
  rewrite (flow_run e cid secret w p Hf Hl Hb). cbn zeta.
  rewrite Hs. reflexivity.
Qed.

(** X3: when no request reaches the callback branch of [do_GET] (none at
    all, or only other paths and targets [urlparse] rejects), the flow fails
    with "Authorization timed out" and makes no token exchange. *)
Theorem perform_oauth_flow_timeout (e : env) (cid secret : string) (w : world) (p : Z) :
  find_available_port (env_bindable e) 8080 = Ret p ->
  env_listen_ok e = true ->
  env_browser_ok e = true ->
  forallb (fun r => negb (is_callback r)) (env_requests e) = true ->
  perform_oauth_flow e cid secret w =
    (Ret (VNone, VNone, VStr "Authorization timed out"),
     stopped e p (EvBrowser (auth_url_of e cid secret p) :: EvListen p :: trace w)).
Proof.
  intros Hf Hl Hb Hn.
  rewrite (flow_run e cid secret w p Hf Hl Hb). cbn zeta.
  rewrite (serve_no_callback _ _ Hn). reflexivity.
Qed.

(** X4: [start()] resets the shared handler fields, so what an earlier flow
    left in them (or in the server object) has no influence: two flows in
    the same outside world have the same outcome and leave the same handler
    state. *)
Theorem perform_oauth_flow_fresh_state (e : env) (cid secret : string) (w1 w2 : world) :
  fst (perform_oauth_flow e cid secret w1) = fst (perform_oauth_flow e cid secret w2) /\
  handler (snd (perform_oauth_flow e cid secret w1)) =
  handler (snd (perform_oauth_flow e cid secret w2)).
Proof.
  flow_cases e p Hp Hl Hb.
  - rewrite (flow_run e cid secret w1 p Hp Hl Hb), (flow_run e cid secret w2 p Hp Hl Hb).
    cbn zeta.
    destruct (truthy_opt _); [split; reflexivity|].
    destruct (negb _); [split; reflexivity|].
    destruct (state_differs _ _); [split; reflexivity|].
    split; reflexivity.
  - rewrite (flow_browser_fails e cid secret w1 p Hp Hl Hb),
      (flow_browser_fails e cid secret w2 p Hp Hl Hb). split; reflexivity.
  - rewrite (flow_listen_fails e cid secret w1 p Hp Hl),
      (flow_listen_fails e cid secret w2 p Hp Hl). split; reflexivity.
  - rewrite (flow_start_fails e cid secret w1 _ Hp), (flow_start_fails e cid secret w2 _ Hp).
    split; reflexivity.
Qed.

Lemma flow_success (e : env) (cid secret : string) (w : world)
    (p : Z) (rs1 rs2 : list string) (r q c : string) :
  urlparse r = Ret ("/callback", q) ->
  qs_first "code" (parse_qsl q) = Some c ->
  qs_first "state" (parse_qsl q) = Some (env_token e) ->
  forallb (fun x => negb (is_callback x)) rs1 = true ->
  forallb (fun x => negb (is_callback x)) rs2 = true ->
  find_available_port (env_bindable e) 8080 = Ret p ->
  env_listen_ok e = true ->
  env_browser_ok e = true ->
  env_requests e = (rs1 ++ r :: rs2)%list ->
  perform_oauth_flow e cid secret w =
    (match post_json (env_token_reply e) with
     | Ret d => Ret (dict_get "access_token" d, dict_get "refresh_token" d, VNone)
     | Raise x => Raise x
     end,
     stopped e p (EvExchange c :: EvBrowser (auth_url_of e cid secret p) :: EvListen p :: trace w)).
Proof.
  intros Hp Hc Hs Hn1 Hn2 Hf Hl Hb Hr.
  assert (Hst : serve (env_requests e) reset_state =
    {| auth_code := Some c; auth_state := Some (env_token e); error := None |}).
  { rewrite Hr, (serve_last _ _ _ _ Hn2), (serve_no_callback _ _ Hn1).
    rewrite (do_GET_code r q c _ Hp Hc), Hs. reflexivity. }
  rewrite (flow_run e cid secret w p Hf Hl Hb). cbn zeta.
  rewrite Hst. cbn [error auth_code auth_state truthy_opt state_differs].
  rewrite String.eqb_refl.
  assert (Hc' : c <> "") by exact (qs_first_nonempty _ _ _ Hc).
  destruct (String.eqb_spec c ""); [contradiction|]. reflexivity.
Qed.

(** X5: the success path: a [/callback] request carrying a code and the
    generated state, with only requests that do not reach the callback
    branch before and after it, leads to exactly one token exchange, of that
    code, whatever the endpoint answers; a 2xx JSON object answer gives
    [(data.get("access_token"), data.get("refresh_token"), None)], any other
    answer raises its exception out of the flow. *)
Theorem perform_oauth_flow_success (e : env) (cid secret : string) (w : world)
    (p : Z) (rs1 rs2 : list string) (r q c : string) :
  urlparse r = Ret ("/callback", q) ->
  qs_first "code" (parse_qsl q) = Some c ->
  qs_first "state" (parse_qsl q) = Some (env_token e) ->
  forallb (fun x => negb (is_callback x)) rs1 = true ->
  forallb (fun x => negb (is_callback x)) rs2 = true ->
  find_available_port (env_bindable e) 8080 = Ret p ->
  env_listen_ok e = true ->
  env_browser_ok e = true ->
  env_requests e = (rs1 ++ r :: rs2)%list ->
  perform_oauth_flow e cid secret w =
    (match post_json (env_token_reply e) with
     | Ret d => Ret (dict_get "access_token" d, dict_get "refresh_token" d, VNone)
     | Raise x => Raise x
     end,
     stopped e p (EvExchange c :: EvBrowser (auth_url_of e cid secret p) :: EvListen p :: trace w)).
Proof. exact (flow_success e cid secret w p rs1 rs2 r q c). Qed.

(** ** Query-string encoding and decoding *)

Lemma replace_char_app (a b : ascii) (s t : string) :
  replace_char a b (s ++ t) = replace_char a b s ++ replace_char a b t.
Proof. induction s as [|c s IH]; cbn; [reflexivity|]. rewrite IH. reflexivity. Qed.

Lemma unquote_quote_byte (c : ascii) (r : string) :
  unquote (replace_char "+" " " (quote_byte c) ++ r) = String c (unquote r).
Proof. destruct c as [[] [] [] [] [] [] [] []]; reflexivity. Qed.

Lemma unquote_plus_quote_plus (s : string) : unquote_plus (quote_plus s) = s.
Proof.
  unfold unquote_plus. induction s as [|c t IH]; [reflexivity|].
  cbn [quote_plus]. rewrite replace_char_app, unquote_quote_byte, IH. reflexivity.
Qed.

Lemma quote_byte_shape (c : ascii) :
  has_char "=" (quote_byte c) = false /\ has_char ":" (quote_byte c) = false /\
  quote_byte c <> "".
Proof. destruct c as [[] [] [] [] [] [] [] []]; (split; [reflexivity|split; [reflexivity|discriminate]]). Qed.

Lemma quote_plus_shape (s : string) :
  has_char "=" (quote_plus s) = false /\ has_char ":" (quote_plus s) = false.
Proof.
  induction s as [|c t [IH1 IH2]]; cbn [quote_plus]; [split; reflexivity|].
  rewrite !has_char_app, IH1, IH2. destruct (quote_byte_shape c) as [-> [-> _]].
  split; reflexivity.
Qed.

Lemma quote_plus_nonempty (s : string) : s <> "" -> quote_plus s <> "".
Proof.
  destruct s as [|c t]; [contradiction|]. intros _. cbn [quote_plus].
  destruct (quote_byte_shape c) as [_ [_ H]]. destruct (quote_byte c); [contradiction|discriminate].
Qed.

Lemma split_once_app (c : ascii) (a b : string) :
  has_char c a = false -> split_once c (a ++ String c b) = Some (a, b).
Proof.
  induction a as [|x t IH]; cbn.
  - unfold char_eqb. rewrite Ascii.eqb_refl. reflexivity.
  - intros H; apply orb_false_elim in H as [Hx Ht]. rewrite Hx, IH by exact Ht. reflexivity.
Qed.

Lemma parse_field_encoded (k v : string) :
  v <> "" -> parse_field (quote_plus k ++ "=" ++ quote_plus v) = [(k, v)].
Proof.
  intros Hv. unfold parse_field.
  destruct (quote_plus_shape k) as [Hk _].
  replace (quote_plus k ++ "=" ++ quote_plus v) with (quote_plus k ++ String "=" (quote_plus v))
    by reflexivity.
  rewrite (split_once_app _ _ _ Hk).
  pose proof (quote_plus_nonempty v Hv) as Hq.
  destruct (quote_plus k ++ String "=" (quote_plus v)) eqn:E.
  - destruct (quote_plus k); discriminate.
  - destruct (quote_plus v) eqn:Ev; [contradiction|].
    rewrite <- Ev, !unquote_plus_quote_plus. reflexivity.
Qed.

Lemma parse_qsl_urlencode (ps : list (string * string)) :
  Forall (fun kv => snd kv <> "") ps -> parse_qsl (urlencode ps) = ps.
Proof.
  intros H. unfold urlencode. induction H as [|[k v] r Hv Hr IH]; [reflexivity|].
  cbn [snd] in Hv. destruct r as [|[k2 v2] r'].
  - cbn [map String.concat]. unfold parse_qsl.
    rewrite split_on_none by apply field_clean.
    cbn [flat_map]. rewrite (parse_field_encoded k v Hv). reflexivity.
  - change (String.concat "&" (map (fun '(k, v) => quote_plus k ++ "=" ++ quote_plus v)
              ((k, v) :: (k2, v2) :: r')))
      with ((quote_plus k ++ "=" ++ quote_plus v) ++ String "&"
              (String.concat "&" (map (fun '(k, v) => quote_plus k ++ "=" ++ quote_plus v)
                 ((k2, v2) :: r')))).
    rewrite parse_qsl_app by apply field_clean.
    rewrite (parse_field_encoded k v Hv), IH. reflexivity.
Qed.

Lemma values_nonempty (ps : list (string * string)) :
  forallb (fun kv => negb (String.eqb (snd kv) "")) ps = true ->
  Forall (fun kv => snd kv <> "") ps.
Proof.
  induction ps as [|kv r IH]; cbn [forallb]; [constructor|].
  intros H; apply andb_prop in H as [H1 H2]. constructor; [|exact (IH H2)].
  destruct (String.eqb_spec (snd kv) ""); [discriminate|assumption].
Qed.

(** X6: [quote_plus] is inverted by [unquote_plus] on every byte string, and
    [parse_qsl] inverts [urlencode] (names, values and order) for every list
    of parameters whose values are non-empty. *)
Theorem urlencode_roundtrip (ps : list (string * string)) :
  forallb (fun kv => negb (String.eqb (snd kv) "")) ps = true ->
  (forall s, unquote_plus (quote_plus s) = s) /\ parse_qsl (urlencode ps) = ps.
Proof.
  intros H. split; [apply unquote_plus_quote_plus | apply parse_qsl_urlencode, values_nonempty, H].
Qed.

(** X7: the query of the authorization URL decodes to exactly its five
    parameters, [client_id], [redirect_uri], [response_type=code],
    [scope="tasks:read tasks:write"] and [state], whenever the client id,
    the redirect URI and the state are non-empty. *)
Theorem authorization_url_query (a : TickTickAuth) (state : option string) (fresh : string) :
  client_id a <> "" -> redirect_uri a <> "" ->
  snd (get_authorization_url a state fresh) <> "" ->
  parse_qsl (url_query (fst (get_authorization_url a state fresh))) =
    [("client_id", client_id a); ("redirect_uri", redirect_uri a);
     ("response_type", "code"); ("scope", "tasks:read tasks:write");
     ("state", snd (get_authorization_url a state fresh))].
Proof.
  intros Hc Hr Hs. unfold get_authorization_url in *. cbn [fst snd] in *.
  rewrite url_query_authorize_encode.
  apply parse_qsl_urlencode.
  repeat constructor; cbn [snd]; auto; discriminate.
Qed.

(** ** Routing of the redirect URI and of the callback request *)

Lemma string_of_uint_digits (d : Decimal.uint) :
  all_chars is_digit (NilZero.string_of_uint d) = true.
Proof.
  assert (H : forall u, all_chars is_digit (NilEmpty.string_of_uint u) = true)
    by (induction u; cbn [NilEmpty.string_of_uint all_chars]; rewrite ?IHu; reflexivity).
  destruct d; [reflexivity| apply H ..].
Qed.

Lemma str_of_Z_chars (n : Z) :
  all_chars (fun c => is_digit c || char_eqb c "-") (str_of_Z n) = true.
Proof.
  assert (H : forall d, all_chars (fun c => is_digit c || char_eqb c "-")
                          (NilZero.string_of_uint d) = true).
  { intros d. pose proof (string_of_uint_digits d) as Hd.
    induction (NilZero.string_of_uint d) as [|c t IH]; [reflexivity|].
    cbn in Hd |- *. apply andb_prop in Hd as [Hc Ht]. rewrite Hc, IH; auto. }
  unfold str_of_Z. destruct (Z.to_int n); cbn [NilZero.string_of_int]; [apply H|].
  cbn [all_chars]. rewrite H. reflexivity.
Qed.

Lemma split_netloc_port (d b : string) :
  all_chars (fun c => is_digit c || char_eqb c "-") d = true ->
  split_netloc (d ++ String "/" b) = (d, String "/" b).
Proof.
  induction d as [|c t IH]; [reflexivity|].
  cbn [all_chars]. intros H; apply andb_prop in H as [Hc Ht].
  cbn [append split_netloc]. rewrite (IH Ht).
  revert Hc; destruct c as [[] [] [] [] [] [] [] []]; cbn; try discriminate; reflexivity.
Qed.

Lemma has_char_urlencode_colon (ps : list (string * string)) :
  has_char ":" (urlencode ps) = false.
Proof.
  unfold urlencode. apply has_char_concat; [reflexivity|].
  induction ps as [|[k v] r IH]; constructor; [|exact IH].
  rewrite !has_char_app. destruct (quote_plus_shape k) as [_ ->].
  destruct (quote_plus_shape v) as [_ ->]. reflexivity.
Qed.

Lemma all_chars_impl (p q : ascii -> bool) (s : string) :
  (forall c, p c = true -> q c = true) -> all_chars p s = true -> all_chars q s = true.
Proof.
  intros H. induction s as [|c t IH]; cbn; [reflexivity|].
  intros Hs; apply andb_prop in Hs as [Hc Ht]. rewrite (H c Hc), IH; auto.
Qed.

Lemma has_char_all_chars (x : ascii) (s : string) :
  all_chars (fun c => negb (char_eqb c x)) s = true -> has_char x s = false.
Proof.
  induction s as [|c t IH]; cbn; [reflexivity|].
  intros Hs; apply andb_prop in Hs as [Hc Ht]. destruct (char_eqb c x); [discriminate|]. auto.
Qed.

(** The port digits carry no bracket and nothing [urlsplit] removes. *)
Lemma port_chars_clean (d : string) :
  all_chars (fun c => is_digit c || char_eqb c "-") d = true ->
  remove_unsafe d = d /\ has_char "[" d = false /\ has_char "]" d = false.
Proof.
  intros Hd. split; [|split].
  - apply remove_unsafe_id. revert Hd. apply all_chars_impl.
    intros c; destruct c as [[] [] [] [] [] [] [] []]; cbn; try discriminate; reflexivity.
  - apply has_char_all_chars. revert Hd. apply all_chars_impl.
    intros c; destruct c as [[] [] [] [] [] [] [] []]; cbn; try discriminate; reflexivity.
  - apply has_char_all_chars. revert Hd. apply all_chars_impl.
    intros c; destruct c as [[] [] [] [] [] [] [] []]; cbn; try discriminate; reflexivity.
Qed.

(** X8: the redirect URI the server advertises, for whatever port it found,
    is routed by [do_GET] to the callback branch: its path is [/callback]
    and it has no query of its own. *)
Theorem redirect_uri_is_callback (port : Z) :
  is_callback (redirect_uri_of_port port) = true /\
  url_query (redirect_uri_of_port port) = "".
Proof.
  assert (Hs : split_components (redirect_uri_of_port port) =
    {| us_scheme := "http"; us_netloc := "localhost:" ++ str_of_Z port;
       us_path := "/callback"; us_query := ""; us_fragment := "" |} /\
    netloc_error ("localhost:" ++ str_of_Z port) = None).
  { unfold redirect_uri_of_port, HOST.
    pose proof (str_of_Z_chars port) as Hd. generalize dependent (str_of_Z port). intros d Hd.
    destruct (port_chars_clean d Hd) as (Hr & Ho & Hc).
    split.
    - unfold split_components.
      change (lstrip_c0 ("http://" ++ "localhost" ++ ":" ++ d ++ "/callback"))
        with ("http://localhost:" ++ d ++ "/callback").
      rewrite !remove_unsafe_app, Hr.
      change (remove_unsafe "http://localhost:") with "http://localhost:".
      change (remove_unsafe "/callback") with "/callback".
      change (split_scheme ("http://localhost:" ++ d ++ "/callback"))
        with ("http", "//localhost:" ++ d ++ String "/" "callback").
      cbv beta iota zeta. cbn [append char_eqb Ascii.eqb Bool.eqb andb split_netloc orb].
      rewrite (split_netloc_port d _ Hd). reflexivity.
    - unfold netloc_error. rewrite !has_char_app, Ho, Hc. reflexivity. }
  destruct Hs as [Hs Hn].
  unfold is_callback, urlparse, urlsplit, url_query. rewrite Hs. cbn [us_netloc]. rewrite Hn.
  split; reflexivity.
Qed.

(** X9: a request [/callback?<urlencode(ps)>] (the shape of the redirect
    carrying [code] and [state]) reaches the callback branch of [do_GET]
    and its parameters are decoded back to [ps] when their values are
    non-empty; so the code and state recorded are the first [code] and
    [state] of [ps]. *)
Theorem callback_request_decoded (ps : list (string * string)) (st : callback_state) (c : string) :
  forallb (fun kv => negb (String.eqb (snd kv) "")) ps = true ->
  qs_first "code" ps = Some c ->
  is_callback ("/callback?" ++ urlencode ps) = true /\
  parse_qsl (url_query ("/callback?" ++ urlencode ps)) = ps /\
  do_GET ("/callback?" ++ urlencode ps) st =
    (Ret 200, {| auth_code := Some c; auth_state := qs_first "state" ps; error := error st |}).
Proof.
  intros Hps Hc.
  assert (Hs : split_components ("/callback?" ++ urlencode ps) =
    {| us_scheme := ""; us_netloc := ""; us_path := "/callback";
       us_query := urlencode ps; us_fragment := "" |}).
  { pose proof (has_char_urlencode_colon ps) as H1. pose proof (has_char_urlencode ps) as H2.
    pose proof (urlencode_url_safe ps) as H3.
    generalize dependent (urlencode ps). intros q H1 H2 H3.
    unfold split_components.
    change (lstrip_c0 ("/callback?" ++ q)) with ("/callback?" ++ q).
    rewrite remove_unsafe_app, (remove_unsafe_id q H3).
    change (remove_unsafe "/callback?") with "/callback?".
    unfold split_scheme.
    rewrite (split_once_none ":" ("/callback?" ++ q)) by (cbn; exact H1).
    cbn [append]. cbv beta iota zeta. cbn [char_eqb Ascii.eqb Bool.eqb andb].
    cbv beta iota zeta.
    rewrite (split_once_none "#") by (cbn; exact H2).
    cbn. reflexivity. }
  assert (Hp : urlparse ("/callback?" ++ urlencode ps) = Ret ("/callback", urlencode ps))
    by (unfold urlparse, urlsplit; rewrite Hs; reflexivity).
  assert (Hq : parse_qsl (url_query ("/callback?" ++ urlencode ps)) = ps)
    by (unfold url_query; rewrite Hs; apply parse_qsl_urlencode, values_nonempty, Hps).
  split; [unfold is_callback; rewrite Hp; reflexivity|]. split; [exact Hq|].
  assert (Hps' : parse_qsl (urlencode ps) = ps)
    by apply parse_qsl_urlencode, values_nonempty, Hps.
  rewrite (do_GET_code _ _ c st Hp) by (rewrite Hps'; exact Hc).
  rewrite Hps'. reflexivity.
Qed.

(** ** Port search, without assumptions on the start port *)

Lemma scan_ports_bounds (b : Z -> bool) (n : nat) : forall port,
  (forall q, scan_ports b port n = Ret (Some q) ->
     port <= q < port + Z.of_nat n /\ 0 <= q <= 65535 /\ b q = true) /\
  (forall x, scan_ports b port n = Raise x -> x = OverflowError).
Proof.
  induction n as [|n IH]; intros port; cbn [scan_ports].
  - split; intros; discriminate.
  - destruct ((0 <=? port) && (port <=? 65535)) eqn:Hr.
    + apply andb_prop in Hr as [H0 H1]. apply Z.leb_le in H0, H1.
      destruct (b port) eqn:Hb.
      * split; [|discriminate]. intros q Hq; injection Hq as <-. repeat split; auto; lia.
      * destruct (IH (port + 1)) as [IHs IHx]. split; [|exact IHx].
        intros q Hq. destruct (IHs q Hq) as (Hq1 & Hq2 & Hq3). repeat split; auto; lia.
    + split; [discriminate|]. intros x Hx; injection Hx as <-. reflexivity.
Qed.

(** X10: whatever the start port, [_find_available_port] only returns a
    port of the window [start, start+100) that is a valid port and whose
    probe bound; it only raises the [RuntimeError] of an exhausted window or
    the [OverflowError] of [socket.bind]; a negative start raises
    [OverflowError] at once. *)
Theorem find_available_port_bounds (b : Z -> bool) (p : Z) :
  (forall q, find_available_port b p = Ret q ->
     p <= q < p + 100 /\ 0 <= q <= 65535 /\ b q = true) /\
  (forall x, find_available_port b p = Raise x ->
     x = OverflowError \/
     x = RuntimeError ("No available ports found starting from " ++ str_of_Z p)) /\
  (p < 0 -> find_available_port b p = Raise OverflowError).
Proof.
  destruct (scan_ports_bounds b 100 p) as [Hs Hx]. unfold find_available_port.
  split; [|split].
  - intros q Hq. destruct (scan_ports b p 100) as [[q'|]|x] eqn:E; try discriminate.
    injection Hq as <-. apply Hs; reflexivity.
  - intros x Hq. destruct (scan_ports b p 100) as [[q'|]|x'] eqn:E; try discriminate.
    + injection Hq as <-. right; reflexivity.
    + injection Hq as <-. left; apply Hx; reflexivity.
  - intros Hp. cbn [scan_ports].
    replace (0 <=? p) with false by (symmetry; apply Z.leb_gt; lia). reflexivity.
Qed.

(** ** Token calls *)

(** X11: an exchange whose answer has no (or an empty) [refresh_token]
    stores the answer's access token and leaves nothing to refresh with:
    the next [refresh_access_token] raises [ValueError("No refresh token
    available")] whatever the endpoint would answer, and changes nothing. *)
Theorem exchange_then_refresh (r1 r2 : http_reply) (a a1 : TickTickAuth) (d : pydict) :
  exchange_code r1 a = (Ret d, a1) ->
  truthy (dict_get "refresh_token" d) = false ->
  access_token_ a1 = dict_get "access_token" d /\
  refresh_access_token r2 a1 = (Raise (ValueError "No refresh token available"), a1).
Proof.
  unfold exchange_code. intros H Hr.
  destruct (post_json r1) as [d'|x]; [|discriminate].
  injection H as <- <-. split; [reflexivity|].
  unfold refresh_access_token. cbn [refresh_token_]. rewrite Hr. reflexivity.
Qed.

(** X12: a failing [exchange_code] or [refresh_access_token] leaves the
    held tokens as they were, and the [HTTPStatusError] of
    [raise_for_status] is raised exactly for a reply outside 2xx. *)
Theorem token_calls_fail_cleanly (r : http_reply) (a : TickTickAuth) :
  (forall x a', exchange_code r a = (Raise x, a') -> a' = a) /\
  (forall x a', refresh_access_token r a = (Raise x, a') -> a' = a) /\
  (forall s, fst (exchange_code r a) = Raise (HTTPStatusError s) <->
     exists b, r = Reply s b /\ ~ (200 <= s < 300)).
Proof.
  split; [|split].
  - intros x a' H. unfold exchange_code in H.
    destruct (post_json r); [discriminate H | injection H as _ <-; reflexivity].
  - intros x a' H. unfold refresh_access_token in H.
    destruct (negb (truthy (refresh_token_ a))); [injection H as _ <-; reflexivity|].
    destruct (post_json r); [discriminate H | injection H as _ <-; reflexivity].
  - intros s. unfold exchange_code.
    destruct r as [|st [d| |]]; cbn [post_json].
    + split; [discriminate|]. intros (b & Hb & _); discriminate.
    + destruct ((200 <=? st) && (st <? 300)) eqn:E; cbn [fst].
      * split; [discriminate|]. intros (b & Hb & Hn). injection Hb as <- _.
        apply andb_prop in E as [E1 E2]. apply Z.leb_le in E1. apply Z.ltb_lt in E2. lia.
      * split.
        -- intros H; injection H as <-. exists (JObj d). split; [reflexivity|].
           intros [H1 H2]. apply Z.leb_le in H1. apply Z.ltb_lt in H2. rewrite H1, H2 in E.
           discriminate.
        -- intros (b & Hb & _). injection Hb as <- _. reflexivity.
    + destruct ((200 <=? st) && (st <? 300)) eqn:E; cbn [fst].
      * split; [discriminate|]. intros (b & Hb & Hn). injection Hb as <- _.
        apply andb_prop in E as [E1 E2]. apply Z.leb_le in E1. apply Z.ltb_lt in E2. lia.
      * split.
        -- intros H; injection H as <-. exists JNonObject. split; [reflexivity|].
           intros [H1 H2]. apply Z.leb_le in H1. apply Z.ltb_lt in H2. rewrite H1, H2 in E.
           discriminate.
        -- intros (b & Hb & _). injection Hb as <- _. reflexivity.
    + destruct ((200 <=? st) && (st <? 300)) eqn:E; cbn [fst].
      * split; [discriminate|]. intros (b & Hb & Hn). injection Hb as <- _.
        apply andb_prop in E as [E1 E2]. apply Z.leb_le in E1. apply Z.ltb_lt in E2. lia.
      * split.
        -- intros H; injection H as <-. exists JInvalid. split; [reflexivity|].
           intros [H1 H2]. apply Z.leb_le in H1. apply Z.ltb_lt in H2. rewrite H1, H2 in E.
           discriminate.
        -- intros (b & Hb & _). injection Hb as <- _. reflexivity.
Qed.

(** ** The tokens file and its readers *)

(** X14: the CLI builds its client from the tokens file: after a save it
    uses the saved access token (with no refresh token and empty client
    credentials) when that token is truthy and raises the "Not logged in"
    [RuntimeError] otherwise; with no file it raises that error. *)
Theorem cli_client_from_saved_tokens (atok rtok : pyval) (f : token_file) :
  build_client_from_tokens (storage_save atok rtok f) =
    (if truthy atok then Ret (auth_with_token "" "" atok) else Raise (RuntimeError NOT_LOGGED_IN)) /\
  build_client_from_tokens (storage_clear f) = Raise (RuntimeError NOT_LOGGED_IN).
Proof.
  split; [|reflexivity].
  unfold build_client_from_tokens. cbn. destruct (truthy atok); reflexivity.
Qed.

(** ** The login screen and the app's start-up *)

Lemma nonempty_eqb (s : string) : s <> "" -> String.eqb s "" = false.
Proof. intros H. apply String.eqb_neq, H. Qed.

(** X15: the OAuth login button never starts the flow without both
    credentials (the world is untouched); otherwise the app ends in the
    world the flow leaves; and it replaces its auth object and the tokens
    file only after a flow that returned no error and a truthy access token,
    storing exactly the returned tokens. *)
Theorem on_oauth_login_tokens (e : env) (cid secret : string) (w : world) (s : app) :
  ((cid = "" \/ secret = "") ->
     on_oauth_login e cid secret w s =
       (show (Notify "Client ID and Client Secret are required for OAuth") s, w)) /\
  (cid <> "" -> secret <> "" ->
     snd (on_oauth_login e cid secret w s) = snd (perform_oauth_flow e cid secret w)) /\
  ((app_auth (fst (on_oauth_login e cid secret w s)) = app_auth s /\
    app_file (fst (on_oauth_login e cid secret w s)) = app_file s) \/
   exists atok rtok err,
     fst (perform_oauth_flow e cid secret w) = Ret (atok, rtok, err) /\
     truthy err = false /\ truthy atok = true /\
     app_auth (fst (on_oauth_login e cid secret w s)) = Some (auth_with_token cid secret atok) /\
     app_file (fst (on_oauth_login e cid secret w s)) = storage_save atok rtok (app_file s)).
Proof.
  split; [|split].
  - intros [-> | ->]; unfold on_oauth_login; cbn [String.eqb];
      [reflexivity | rewrite orb_true_r; reflexivity].
  - intros Hc Hs. unfold on_oauth_login. rewrite (nonempty_eqb _ Hc), (nonempty_eqb _ Hs).
    cbn [orb]. destruct (perform_oauth_flow e cid secret w) as [[[[atok rtok] err]|x] w'].
    + destruct (truthy err); [reflexivity|]. destruct (truthy atok); reflexivity.
    + reflexivity.
  - unfold on_oauth_login.
    destruct (String.eqb cid "" || String.eqb secret ""); [left; split; reflexivity|].
    destruct (perform_oauth_flow e cid secret w) as [[[[atok rtok] err]|x] w'] eqn:F.
    + destruct (truthy err) eqn:He; [left; split; reflexivity|].
      destruct (truthy atok) eqn:Ha; [|left; split; reflexivity].
      right. exists atok, rtok, err. repeat split; auto.
    + left; split; reflexivity.
Qed.

(** X16: when the token endpoint answers 2xx with a JSON object lacking a
    truthy [access_token] (after a callback carrying a code and the right
    state), the login screen shows "No access token received", notifies the
    failure and keeps its auth object and tokens file, although the code was
    exchanged and the listener stopped. *)
Theorem on_oauth_login_no_access_token (e : env) (cid secret : string) (w : world) (s : app)
    (p : Z) (rs1 rs2 : list string) (r q c : string) (d : pydict) :
  cid <> "" -> secret <> "" ->
  urlparse r = Ret ("/callback", q) ->
  qs_first "code" (parse_qsl q) = Some c ->
  qs_first "state" (parse_qsl q) = Some (env_token e) ->
  forallb (fun x => negb (is_callback x)) rs1 = true ->
  forallb (fun x => negb (is_callback x)) rs2 = true ->
  find_available_port (env_bindable e) 8080 = Ret p ->
  env_listen_ok e = true ->
  env_browser_ok e = true ->
  env_requests e = (rs1 ++ r :: rs2)%list ->
  post_json (env_token_reply e) = Ret d ->
  truthy (dict_get "access_token" d) = false ->
  on_oauth_login e cid secret w s =
    (show (Notify "OAuth failed: No access token")
       (show (Status "[red]No access token received[/]")
          (show (Status "[yellow]Starting OAuth flow... Check your browser![/]") s)),
     stopped e p (EvExchange c :: EvBrowser (auth_url_of e cid secret p) :: EvListen p :: trace w)).
Proof.
  intros Hc Hs Hp Hcode Hst Hn1 Hn2 Hf Hl Hb Hr Hd Ha.
  unfold on_oauth_login. rewrite (nonempty_eqb _ Hc), (nonempty_eqb _ Hs). cbn [orb].
  rewrite (flow_success e cid secret w p rs1 rs2 r q c Hp Hcode Hst Hn1 Hn2 Hf Hl Hb Hr), Hd.
  cbn [truthy]. rewrite Ha. reflexivity.
Qed.

(** X17: restarting the app with a saved truthy access token opens the main
    screen, but [on_mount] calls [setup_client] without the refresh token,
    so the tokens file is rewritten with the access token alone: a refresh
    token saved by the OAuth login is gone from storage afterwards. *)
Theorem on_mount_drops_refresh_token (atok rtok : pyval) (f : token_file) (s : app) :
  app_file s = storage_save atok rtok f ->
  truthy atok = true ->
  exists s', on_mount s = Ret s' /\
    hd_error (app_ui s') = Some (PushScreen "main") /\
    app_auth s' = Some (auth_with_token "" "" atok) /\
    app_file s' = Some (JObj [("access_token", atok)]) /\
    (exists b, storage_load (app_file s') = Ret b /\ tokens_get "refresh_token" b = Ret VNone).
Proof.
  intros Hf Ha. unfold on_mount. rewrite Hf. cbn [storage_load storage_save tokens_get].
  unfold save_data. cbn [dict_get String.eqb Ascii.eqb Bool.eqb]. rewrite Ha.
  eexists; split; [reflexivity|]. cbn. split; [reflexivity|]. split; [reflexivity|].
  unfold storage_save, save_data. cbn [truthy String.eqb Ascii.eqb Bool.eqb negb].
  split; [reflexivity|]. eexists; split; reflexivity.
Qed.

(** X18: the auth object [setup_client] installs after a successful OAuth
    login holds the access token but never the refresh token (only the file
    gets it), so [refresh_access_token] on it raises [ValueError("No
    refresh token available")] whatever the endpoint would answer. *)
Theorem oauth_login_auth_cannot_refresh (e : env) (cid secret : string) (w : world) (s : app)
    (atok rtok err : pyval) :
  cid <> "" -> secret <> "" ->
  fst (perform_oauth_flow e cid secret w) = Ret (atok, rtok, err) ->
  truthy err = false -> truthy atok = true ->
  app_auth (fst (on_oauth_login e cid secret w s)) = Some (auth_with_token cid secret atok) /\
  app_file (fst (on_oauth_login e cid secret w s)) = storage_save atok rtok (app_file s) /\
  forall reply, refresh_access_token reply (auth_with_token cid secret atok) =
    (Raise (ValueError "No refresh token available"), auth_with_token cid secret atok).
Proof.
  intros Hc Hs F He Ha. unfold on_oauth_login.
  rewrite (nonempty_eqb _ Hc), (nonempty_eqb _ Hs). cbn [orb].
  destruct (perform_oauth_flow e cid secret w) as [o w'] eqn:Ef. cbn in F. subst o.
  rewrite He, Ha. split; [reflexivity|]. split; [reflexivity|]. intros reply. reflexivity.
Qed.

(** X19: after logging in with a pasted access token, the next start-up
    opens the main screen with that token (the client id and secret typed on
    the login screen are not kept). *)
Theorem token_login_then_restart (tok cid secret : string) (s : app) :
  tok <> "" ->
  exists s', on_mount (on_token_login tok cid secret s) = Ret s' /\
    hd_error (app_ui s') = Some (PushScreen "main") /\
    app_auth s' = Some (auth_with_token "" "" (VStr tok)) /\
    app_file s' = Some (JObj [("access_token", VStr tok)]).
Proof.
  intros Ht. unfold on_token_login. rewrite (nonempty_eqb _ Ht).
  unfold on_mount. cbn [show setup_client app_file storage_save storage_load save_data tokens_get
    truthy dict_get String.eqb Ascii.eqb Bool.eqb negb].
  rewrite (nonempty_eqb _ Ht). cbn [negb].
  eexists; split; [reflexivity|]. repeat split.
Qed.

(** ** Loops over projects *)

Lemma all_tasks_loop_acc {I T : Type} (fetch : I -> outcome (list T)) (ids : list I) :
  forall acc,
  all_tasks_loop fetch acc ids =
    match all_tasks_loop fetch [] ids with Ret r => Ret (acc ++ r)%list | Raise x => Raise x end.
Proof.
  induction ids as [|id rest IH]; intros acc; cbn [all_tasks_loop].
  - rewrite app_nil_r. reflexivity.
  - destruct (fetch id) as [ts|[m| | | |s| | | |m'|a]]; try reflexivity.
    + rewrite (IH (acc ++ ts)%list), (IH ([] ++ ts)%list).
      destruct (all_tasks_loop fetch [] rest); [|reflexivity].
      rewrite app_assoc. reflexivity.
    + apply IH.
Qed.

(** X20: [get_all_tasks] skips exactly the projects whose task fetch raises
    [HTTPStatusError]: dropping them from the project list changes nothing;
    when no fetch raises anything else, the result is the concatenation of
    the fetched task lists in project order. *)
Theorem get_all_tasks_skips_failing {I T : Type} (ids : list I) (fetch : I -> outcome (list T)) :
  get_all_tasks (Ret ids) fetch =
    get_all_tasks (Ret (filter (fun id => negb (is_status_error (fetch id))) ids)) fetch /\
  ((forall id, In id ids -> forall x, fetch id = Raise x -> exists s, x = HTTPStatusError s) ->
   get_all_tasks (Ret ids) fetch =
     Ret (flat_map (fun id => match fetch id with Ret ts => ts | Raise _ => [] end) ids)).
Proof.
  unfold get_all_tasks. split.
  - generalize (@nil T). induction ids as [|id rest IH]; intros acc; [reflexivity|].
    cbn [all_tasks_loop filter].
    destruct (fetch id) as [ts|[m| | | |s| | | |m'|a]] eqn:F; cbn [is_status_error negb];
      cbn [all_tasks_loop]; rewrite ?F; try reflexivity; apply IH.
  - intros H. induction ids as [|id rest IH]; [reflexivity|].
    cbn [all_tasks_loop flat_map].
    assert (IH' : all_tasks_loop fetch [] rest =
      Ret (flat_map (fun id => match fetch id with Ret ts => ts | Raise _ => [] end) rest))
      by (apply IH; intros q Hq; apply H; right; exact Hq).
    destruct (fetch id) as [ts|x] eqn:F.
    + rewrite all_tasks_loop_acc, IH'. reflexivity.
    + destruct (H id (or_introl eq_refl) x F) as [s ->]. exact IH'.
Qed.

(** X21: [get_task_any_project] returns the task of the first project whose
    lookup succeeds, every earlier project having answered with an
    [HTTPStatusError]; when every project answers so (or there is none), it
    raises [ValueError("Task not found: <task_id>")]. *)
Theorem get_task_any_project_first {I T : Type} (ids : list I) (get : I -> outcome T)
    (task_id : string) :
  (forall t, get_task_any_project (Ret ids) get task_id = Ret t ->
     exists pre id post, ids = (pre ++ id :: post)%list /\ get id = Ret t /\
       forall q, In q pre -> is_status_error (get q) = true) /\
  ((forall q, In q ids -> is_status_error (get q) = true) ->
   get_task_any_project (Ret ids) get task_id = Raise (ValueError ("Task not found: " ++ task_id))).
Proof.
  unfold get_task_any_project. generalize (@None exn) as le. split.
  - revert le. induction ids as [|id rest IH]; intros le t H; cbn [any_project_loop] in H.
    + destruct le; discriminate.
    + destruct (get id) as [t'|[m| | | |s| | | |m'|a]] eqn:F; try discriminate.
      * injection H as ->. exists [], id, rest. split; [reflexivity|]. split; [exact F|].
        intros q [].
      * destruct (IH _ t H) as (pre & id' & post & -> & Hg & Hpre).
        exists (id :: pre), id', post. split; [reflexivity|]. split; [exact Hg|].
        intros q [<- | Hq]; [rewrite F; reflexivity | apply Hpre, Hq].
  - revert le. induction ids as [|id rest IH]; intros le H; cbn [any_project_loop].
    + destruct le; reflexivity.
    + pose proof (H id (or_introl eq_refl)) as Hid.
      destruct (get id) as [t'|[m| | | |s| | | |m'|a]]; try discriminate.
      apply IH. intros q Hq. apply H. right. exact Hq.
Qed.

(** ** Witnesses of the properties above *)

Lemma callback_without_code_or_error_witness :
  perform_oauth_flow (demo_env ["/favicon.ico"; "/callback?foo=bar"; "http://[/callback?code=z"] reply_ok)
    "id" "secret" demo_world =
    (Ret (VNone, VNone, VStr "No authorization code received"),
     stopped (demo_env ["/favicon.ico"; "/callback?foo=bar"; "http://[/callback?code=z"] reply_ok) 8080
       (EvBrowser (auth_url_of (demo_env ["/favicon.ico"; "/callback?foo=bar"; "http://[/callback?code=z"]
                                  reply_ok)
                     "id" "secret" 8080) :: EvListen 8080 :: trace demo_world)).
Proof.
  refine (proj2 (callback_without_code_or_error
    (demo_env ["/favicon.ico"; "/callback?foo=bar"; "http://[/callback?code=z"] reply_ok)
    "id" "secret" demo_world 8080 ["/favicon.ico"] ["http://[/callback?code=z"]
    "/callback?foo=bar" "foo=bar" _ _ _ _ _ _ _ _)); vm_compute; reflexivity.
Defined.

Lemma perform_oauth_flow_timeout_witness :
  perform_oauth_flow (demo_env ["/favicon.ico"; "/callbackx?code=abc"; "http://[/callback?code=abc"]
                        reply_ok) "id" "secret" demo_world =
    (Ret (VNone, VNone, VStr "Authorization timed out"),
     stopped (demo_env ["/favicon.ico"; "/callbackx?code=abc"; "http://[/callback?code=abc"] reply_ok)
       8080
       (EvBrowser (auth_url_of (demo_env ["/favicon.ico"; "/callbackx?code=abc";
                                          "http://[/callback?code=abc"] reply_ok)
                     "id" "secret" 8080) :: EvListen 8080 :: trace demo_world)).
Proof.
  apply (perform_oauth_flow_timeout
           (demo_env ["/favicon.ico"; "/callbackx?code=abc"; "http://[/callback?code=abc"] reply_ok)
           "id" "secret" demo_world 8080); vm_compute; reflexivity.
Defined.

Lemma perform_oauth_flow_success_witness :
  perform_oauth_flow (demo_env ["/favicon.ico"; "/callback?code=abc123&state=S"; "http://[/x"]
                        (Reply 502 JInvalid)) "id" "secret" demo_world =
    (Raise (HTTPStatusError 502),
     stopped (demo_env ["/favicon.ico"; "/callback?code=abc123&state=S"; "http://[/x"]
                (Reply 502 JInvalid)) 8080
       (EvExchange "abc123"
          :: EvBrowser (auth_url_of (demo_env ["/favicon.ico"; "/callback?code=abc123&state=S";
                                               "http://[/x"] (Reply 502 JInvalid))
                          "id" "secret" 8080) :: EvListen 8080 :: trace demo_world)).
Proof.
  refine (perform_oauth_flow_success
           (demo_env ["/favicon.ico"; "/callback?code=abc123&state=S"; "http://[/x"] (Reply 502 JInvalid))
           "id" "secret" demo_world 8080 ["/favicon.ico"] ["http://[/x"]
           "/callback?code=abc123&state=S" "code=abc123&state=S" "abc123" _ _ _ _ _ _ _ _ _);
    vm_compute; reflexivity.
Defined.

Lemma urlencode_roundtrip_witness :
  (forall s, unquote_plus (quote_plus s) = s) /\
  parse_qsl (urlencode [("scope", "tasks:read tasks:write"); ("a&b", "x=y#z%41"); ("", "v")]) =
    [("scope", "tasks:read tasks:write"); ("a&b", "x=y#z%41"); ("", "v")].
Proof. apply urlencode_roundtrip. vm_compute. reflexivity. Defined.

Lemma authorization_url_query_witness :
  parse_qsl (url_query (fst (get_authorization_url (mk_auth "id" "secret" DEFAULT_REDIRECT_URI)
                                None "S"))) =
    [("client_id", client_id (mk_auth "id" "secret" DEFAULT_REDIRECT_URI));
     ("redirect_uri", redirect_uri (mk_auth "id" "secret" DEFAULT_REDIRECT_URI));
     ("response_type", "code"); ("scope", "tasks:read tasks:write");
     ("state", snd (get_authorization_url (mk_auth "id" "secret" DEFAULT_REDIRECT_URI) None "S"))].
Proof. apply authorization_url_query; neq_by_compute. Defined.

Lemma callback_request_decoded_witness :
  is_callback ("/callback?" ++ urlencode [("code", "abc 1/2"); ("state", "S")]) = true /\
  parse_qsl (url_query ("/callback?" ++ urlencode [("code", "abc 1/2"); ("state", "S")])) =
    [("code", "abc 1/2"); ("state", "S")] /\
  do_GET ("/callback?" ++ urlencode [("code", "abc 1/2"); ("state", "S")]) reset_state =
    (Ret 200, {| auth_code := Some "abc 1/2";
             auth_state := qs_first "state" [("code", "abc 1/2"); ("state", "S")];
             error := error reset_state |}).
Proof.
  apply (callback_request_decoded [("code", "abc 1/2"); ("state", "S")] reset_state "abc 1/2");
    vm_compute; reflexivity.
Defined.

Lemma exchange_then_refresh_witness :
  access_token_ (snd (exchange_code (Reply 200 (JObj [("access_token", VStr "AT1")]))
                       (mk_auth "id" "secret" DEFAULT_REDIRECT_URI))) =
    dict_get "access_token" [("access_token", VStr "AT1")] /\
  refresh_access_token reply_ok
    (snd (exchange_code (Reply 200 (JObj [("access_token", VStr "AT1")]))
            (mk_auth "id" "secret" DEFAULT_REDIRECT_URI))) =
    (Raise (ValueError "No refresh token available"),
     snd (exchange_code (Reply 200 (JObj [("access_token", VStr "AT1")]))
            (mk_auth "id" "secret" DEFAULT_REDIRECT_URI))).
Proof.
  apply (exchange_then_refresh (Reply 200 (JObj [("access_token", VStr "AT1")])) reply_ok
           (mk_auth "id" "secret" DEFAULT_REDIRECT_URI)
           (snd (exchange_code (Reply 200 (JObj [("access_token", VStr "AT1")]))
                   (mk_auth "id" "secret" DEFAULT_REDIRECT_URI)))
           [("access_token", VStr "AT1")]); vm_compute; reflexivity.
Defined.

Lemma on_oauth_login_no_access_token_witness :
  on_oauth_login (demo_env ["/callback?code=abc123&state=S"] (Reply 200 (JObj [("refresh_token", VStr "RT1")])))
    "id" "secret" demo_world {| app_auth := None; app_file := None; app_ui := [] |} =
    (show (Notify "OAuth failed: No access token")
       (show (Status "[red]No access token received[/]")
          (show (Status "[yellow]Starting OAuth flow... Check your browser![/]")
             {| app_auth := None; app_file := None; app_ui := [] |})),
     stopped (demo_env ["/callback?code=abc123&state=S"] (Reply 200 (JObj [("refresh_token", VStr "RT1")])))
       8080
       (EvExchange "abc123"
          :: EvBrowser (auth_url_of (demo_env ["/callback?code=abc123&state=S"]
                                      (Reply 200 (JObj [("refresh_token", VStr "RT1")])))
                          "id" "secret" 8080) :: EvListen 8080 :: trace demo_world)).
Proof.
  apply (on_oauth_login_no_access_token
           (demo_env ["/callback?code=abc123&state=S"] (Reply 200 (JObj [("refresh_token", VStr "RT1")])))
           "id" "secret" demo_world {| app_auth := None; app_file := None; app_ui := [] |}
           8080 [] [] "/callback?code=abc123&state=S" "code=abc123&state=S" "abc123"
           [("refresh_token", VStr "RT1")]);
    try neq_by_compute; vm_compute; reflexivity.
Defined.

Lemma on_mount_drops_refresh_token_witness :
  exists s', on_mount {| app_auth := None; app_file := storage_save (VStr "AT1") (VStr "RT1") None;
                         app_ui := [] |} = Ret s' /\
    hd_error (app_ui s') = Some (PushScreen "main") /\
    app_auth s' = Some (auth_with_token "" "" (VStr "AT1")) /\
    app_file s' = Some (JObj [("access_token", VStr "AT1")]) /\
    (exists b, storage_load (app_file s') = Ret b /\ tokens_get "refresh_token" b = Ret VNone).
Proof.
  apply (on_mount_drops_refresh_token (VStr "AT1") (VStr "RT1") None
           {| app_auth := None; app_file := storage_save (VStr "AT1") (VStr "RT1") None;
              app_ui := [] |}); vm_compute; reflexivity.
Defined.

Lemma oauth_login_auth_cannot_refresh_witness :
  app_auth (fst (on_oauth_login (demo_env ["/callback?code=abc123&state=S"] reply_ok) "id" "secret"
                   demo_world {| app_auth := None; app_file := None; app_ui := [] |})) =
    Some (auth_with_token "id" "secret" (VStr "AT1")) /\
  app_file (fst (on_oauth_login (demo_env ["/callback?code=abc123&state=S"] reply_ok) "id" "secret"
                   demo_world {| app_auth := None; app_file := None; app_ui := [] |})) =
    storage_save (VStr "AT1") (VStr "RT1")
      (app_file {| app_auth := None; app_file := None; app_ui := [] |}) /\
  forall reply, refresh_access_token reply (auth_with_token "id" "secret" (VStr "AT1")) =
    (Raise (ValueError "No refresh token available"), auth_with_token "id" "secret" (VStr "AT1")).
Proof.
  apply (oauth_login_auth_cannot_refresh (demo_env ["/callback?code=abc123&state=S"] reply_ok)
           "id" "secret" demo_world {| app_auth := None; app_file := None; app_ui := [] |}
           (VStr "AT1") (VStr "RT1") VNone);
    try neq_by_compute; vm_compute; reflexivity.
Defined.

Lemma token_login_then_restart_witness :
  exists s', on_mount (on_token_login "tok123" "" "" {| app_auth := None; app_file := None;
                                                        app_ui := [] |}) = Ret s' /\
    hd_error (app_ui s') = Some (PushScreen "main") /\
    app_auth s' = Some (auth_with_token "" "" (VStr "tok123")) /\
    app_file s' = Some (JObj [("access_token", VStr "tok123")]).
Proof. apply token_login_then_restart. neq_by_compute. Defined.
